(** * The Temporal Context Model demo: src/demos/tcm/index.tsx

    A shallow embedding of the numeric core of the tutorial (the vector
    helpers, the drift simulator, the recency and contiguity scenarios) and
    the properties of it that the specification states.

    Conventions of the embedding.
    - A TypeScript [number] is an element of a carrier [T] with the
      operations the source uses on it ([Number T]).  Two carriers are
      provided: [float], the IEEE 754 binary64 numbers a JavaScript engine
      computes with, and [rat], exact rationals with an absorbing NaN, the
      real-number reading of the specification.
    - A [number[]] value is a [list T].  The drift simulator, whose state and
      history hold the same array object, is modelled over a store of arrays
      with references.
    - The length of a list is a natural number.  [new Array(size)] accepts
      the integers from 0 to 2^32 - 1 only: [createItemVector_call] is
      [createItemVector] with that check, for any integer size. *)

From Stdlib Require Import String List ZArith Lia Bool QArith Qcanon Floats.
Import ListNotations.

#[local] Set Warnings "-inexact-float".
#[local] Open Scope nat_scope.

(* ================================================================== *)
(** ** Numbers *)

(** The operations of the source on numbers: literals, [+] and [*], and the
    value arithmetic yields on [undefined] (a read past the end of an
    array). *)
Class Number (T : Type) : Type := {
  num_lit : Q -> T;
  num_add : T -> T -> T;
  num_mul : T -> T -> T;
  num_nan : T
}.

Declare Scope num_scope.
Delimit Scope num_scope with num.
Notation "x + y" := (num_add x y) : num_scope.
Notation "x * y" := (num_mul x y) : num_scope.

Definition zero {T} `{Number T} : T := num_lit 0%Q.
Definition one {T} `{Number T} : T := num_lit 1%Q.

(** [x + undefined], [x * undefined]: NaN whatever [x] is. *)
Definition add_undef {T} `{Number T} (x : T) (y : option T) : T :=
  match y with Some y => (x + y)%num | None => num_nan end.
Definition mul_undef {T} `{Number T} (x : T) (y : option T) : T :=
  match y with Some y => (x * y)%num | None => num_nan end.

(** *** binary64 *)

Definition float_of_Z (z : Z) : float :=
  match z with
  | Z0 => 0%float
  | Zpos p => of_uint63 (Uint63.of_pos p)
  | Zneg p => (- of_uint63 (Uint63.of_pos p))%float
  end.

(** A decimal literal n/d denotes the binary64 number nearest to it: the
    correctly rounded quotient of n and d (both exact below 2^53, as for
    every literal of this program). *)
Definition float_lit (q : Q) : float :=
  (float_of_Z (Qnum q) / float_of_Z (Zpos (Qden q)))%float.

#[export] Instance float_Number : Number float := {
  num_lit := float_lit;
  num_add := PrimFloat.add;
  num_mul := PrimFloat.mul;
  num_nan := nan
}.

(** *** Exact rationals with NaN *)

Definition rat : Type := option Qc.

Definition rat_add (x y : rat) : rat :=
  match x, y with Some a, Some b => Some (a + b)%Qc | _, _ => None end.
Definition rat_mul (x y : rat) : rat :=
  match x, y with Some a, Some b => Some (a * b)%Qc | _, _ => None end.

#[export] Instance rat_Number : Number rat := {
  num_lit := fun q => Some (Q2Qc q);
  num_add := rat_add;
  num_mul := rat_mul;
  num_nan := None
}.

(** Comparison of two exact numbers; false when one is NaN, as in the source
    language. *)
Definition rat_leb (x y : rat) : bool :=
  match x, y with
  | Some a, Some b => Qle_bool a b
  | _, _ => false
  end.
Definition rat_ltb (x y : rat) : bool :=
  match x, y with
  | Some a, Some b => Qle_bool a b && negb (Qeq_bool a b)
  | _, _ => false
  end.
Definition rat_half (x : rat) : rat :=
  match x with Some a => Some (a / Q2Qc 2)%Qc | None => None end.

(** Equality of exact numbers, decided on the fractions. *)
Definition rat_eqb (x y : rat) : bool :=
  match x, y with
  | Some a, Some b => Qeq_bool a b
  | None, None => true
  | _, _ => false
  end.

Fixpoint rats_eqb (v w : list rat) : bool :=
  match v, w with
  | [], [] => true
  | x :: v', y :: w' => rat_eqb x y && rats_eqb v' w'
  | _, _ => false
  end.

(** [le a b] for every two neighbours [a], [b] of a list, left to right. *)
Fixpoint ascending {A : Type} (le : A -> A -> bool) (v : list A) : bool :=
  match v with
  | a :: (b :: _) as v' => le a b && ascending le v'
  | _ => true
  end.

(** The laws of exact arithmetic that the closed form of the drift needs.
    They hold on [rat]; they do not hold on [float], where a product is
    rounded and the two zeros differ. *)
Class ExactArithmetic (T : Type) `{Number T} : Prop := {
  add_zero_l : forall x : T, (zero + x)%num = x;
  add_zero_r : forall x : T, (x + zero)%num = x;
  mul_one_l : forall x : T, (one * x)%num = x;
  mul_zero_l : forall x : T, x <> num_nan -> (zero * x)%num = zero;
  mul_comm : forall x y : T, (x * y)%num = (y * x)%num;
  mul_assoc : forall x y z : T, (x * (y * z))%num = ((x * y) * z)%num
}.

(** [x^n], by repeated multiplication. *)
Fixpoint power {T} `{Number T} (x : T) (n : nat) : T :=
  match n with
  | O => one
  | S n' => (x * power x n')%num
  end.

(** [c * x * ... * x] with [n] factors [x], multiplied from the left one
    after the other, as the drift multiplies a component by rho. *)
Fixpoint times_n {T} `{Number T} (c x : T) (n : nat) : T :=
  match n with
  | O => c
  | S n' => times_n (c * x)%num x n'
  end.

(** Equality of lists of binary64 numbers, bit for bit. *)
Fixpoint floats_eqb (v w : list float) : bool :=
  match v, w with
  | [], [] => true
  | x :: v', y :: w' => PrimFloat.Leibniz.eqb x y && floats_eqb v' w'
  | _, _ => false
  end.

(* ================================================================== *)
(** ** Arrays *)

(** [v.map((val, i) => f val i)], the index counted from [k]. *)
Fixpoint map_from {A B : Type} (f : A -> nat -> B) (k : nat) (v : list A) : list B :=
  match v with
  | [] => []
  | val :: v' => f val k :: map_from f (S k) v'
  end.

(** [v.reduce((acc, val, i) => f acc val i, acc)], the index counted from [k]. *)
Fixpoint reduce_from {A B : Type} (f : B -> A -> nat -> B) (k : nat) (v : list A) (acc : B) : B :=
  match v with
  | [] => acc
  | val :: v' => reduce_from f (S k) v' (f acc val k)
  end.

(** [v[i] = x] for [i] inside the array (the only use the source makes of an
    assignment; outside it the list is left as it is). *)
Fixpoint assign {A : Type} (v : list A) (i : nat) (x : A) : list A :=
  match v, i with
  | [], _ => []
  | _ :: v', O => x :: v'
  | y :: v', S i' => y :: assign v' i' x
  end.

(* ================================================================== *)
(** ** Types, constants and math helpers (lines 6-36) *)

Definition ITEMS : list string :=
  ["Apple"; "Beach"; "Car"; "Dog"; "Eagle"; "Forest"]%string.
Definition VECTOR_SIZE : nat := 6.

Section MathHelpers.
Context {T : Type} `{Number T}.

(** [const dot = (v1, v2) => v1.reduce((sum, val, i) => sum + val * v2[i], 0)] *)
Definition dot (v1 v2 : list T) : T :=
  reduce_from (fun sum val i => (sum + mul_undef val (nth_error v2 i))%num) 0 v1 zero.

(** [const scale = (v, s) => v.map(val => val * s)] *)
Definition scale (v : list T) (s : T) : list T :=
  map (fun val => (val * s)%num) v.

(** [const add = (v1, v2) => v1.map((val, i) => val + v2[i])] *)
Definition add (v1 v2 : list T) : list T :=
  map_from (fun val i => add_undef val (nth_error v2 i)) 0 v1.

(** [createItemVector(index, size)]: [new Array(size).fill(0)], then
    [v[index] = 1] under the guard [index >= 0 && index < size]. *)
Definition createItemVector (index : Z) (size : nat) : list T :=
  let v := repeat zero size in
  if ((0 <=? index)%Z && (index <? Z.of_nat size)%Z)%bool
  then assign v (Z.to_nat index) one
  else v.

End MathHelpers.

(* ================================================================== *)
(** ** The store of arrays

    Arrays are objects: a variable or a record field holds a reference, and
    two holders of one reference see one array.  A store lists the arrays in
    the order of their allocation; a reference is a position in it. *)

Definition ref : Type := nat.

Section Store.
Context {T : Type} `{Number T}.

Definition store : Type := list (list T).

(** A computation that reads and extends the store. *)
Definition M (A : Type) : Type := store -> A * store.

Definition ret {A : Type} (a : A) : M A := fun h => (a, h).
Definition bind {A B : Type} (c : M A) (k : A -> M B) : M B :=
  fun h => let (a, h') := c h in k a h'.

(** The array a reference denotes. *)
Definition deref (h : store) (r : ref) : list T := nth r h [].

Definition new_array (a : list T) : M ref := fun h => (length h, h ++ [a]).
Definition read (r : ref) : M (list T) := fun h => (deref h r, h).
(** [r[i] = x], in place. *)
Definition write (r : ref) (i : nat) (x : T) : M unit :=
  fun h => (tt, assign h r (assign (deref h r) i x)).

End Store.

Arguments store : clear implicits.
Arguments M : clear implicits.

Notation "x <- c ;; k" := (bind c (fun x => k))
  (at level 61, c at next level, right associativity).

Section HelpersOnReferences.
Context {T : Type} `{Number T}.

(** [scale]: [map] builds a new array and leaves [v] as it is. *)
Definition scale_ref (v : ref) (s : T) : M T ref :=
  a <- read v ;; new_array (scale a s).

(** [add]: a new array again. *)
Definition add_ref (v1 v2 : ref) : M T ref :=
  a1 <- read v1 ;; a2 <- read v2 ;; new_array (add a1 a2).

(** [createItemVector]: the one place of the source that writes into an
    array, the one it has just made. *)
Definition createItemVector_ref (index : Z) (size : nat) : M T ref :=
  v <- new_array (repeat zero size) ;;
  _ <- (if ((0 <=? index)%Z && (index <? Z.of_nat size)%Z)%bool
        then write v (Z.to_nat index) one
        else ret tt) ;;
  ret v.

End HelpersOnReferences.

(* ================================================================== *)
(** ** DriftSimulator (lines 93-126)

    The state of the component and its event handlers.  A render also builds
    arrays to display (lines 181-190); nothing else reads them and they are
    left out. *)

(** An element of the simulator's history, [{item, context}]. *)
Module History.
Record entry : Type := { item : option string; context : ref }.
End History.

Module DriftSimulator.
Section WithNumber.
Context {T : Type} `{Number T}.

(** The five [useState] cells. *)
Record state : Type := {
  beta : T;
  rho : T;
  context : ref;
  history : list History.entry;
  step : nat
}.

(** The first render: [useState(0.6)], [useState(0.8)],
    [useState(new Array(6).fill(0))], [useState([])], [useState(0)]. *)
Definition mount : M T state :=
  c <- new_array (repeat zero 6) ;;
  ret {| beta := num_lit 0.6; rho := num_lit 0.8; context := c;
         history := []; step := 0 |}.

(** [ITEMS[step % ITEMS.length]] *)
Definition currentItemName (st : state) : option string :=
  nth_error ITEMS (step st mod length ITEMS).

Definition processNextItem (st : state) : M T state :=
  let itemIdx := step st mod length ITEMS in
  itemVec <- createItemVector_ref (Z.of_nat itemIdx) VECTOR_SIZE ;;
  decayedContext <- scale_ref (context st) (rho st) ;;
  inputContext <- scale_ref itemVec (beta st) ;;
  newContext <- add_ref decayedContext inputContext ;;
  ret {| beta := beta st; rho := rho st;
         context := newContext;
         history := history st ++
                    [{| History.item := currentItemName st;
                        History.context := newContext |}];
         step := S (step st) |}.

Definition reset (st : state) : M T state :=
  c <- new_array (repeat zero 6) ;;
  ret {| beta := beta st; rho := rho st; context := c;
         history := []; step := 0 |}.

(** The sliders' [onChange]: [setRho(parseFloat(e.target.value))] and
    [setBeta(parseFloat(e.target.value))], given the parsed number. *)
Definition setRho (v : T) (st : state) : state :=
  {| beta := beta st; rho := v; context := context st;
     history := history st; step := step st |}.
Definition setBeta (v : T) (st : state) : state :=
  {| beta := v; rho := rho st; context := context st;
     history := history st; step := step st |}.

(** The values of a slider: [min="0" max="1" step="0.1"]. *)
Definition slider_values : list T :=
  map (fun n => num_lit (Z.of_nat n # 10)) (seq 0 11).

(** What the user can do to the component. *)
Inductive event : Type :=
| PresentItem
| ClickReset
| ChangeRho (v : T)
| ChangeBeta (v : T).

Definition handle (e : event) (st : state) : M T state :=
  match e with
  | PresentItem => processNextItem st
  | ClickReset => reset st
  | ChangeRho v => ret (setRho v st)
  | ChangeBeta v => ret (setBeta v st)
  end.

Fixpoint handle_all (es : list event) (st : state) : M T state :=
  match es with
  | [] => ret st
  | e :: es' => st' <- handle e st ;; handle_all es' st'
  end.

(** The component after the events [es], from an empty store. *)
Definition run (es : list event) : state * store T :=
  (st <- mount ;; handle_all es st) [].

(** The vector the simulator shows as its current context. *)
Definition currentContext (s : state * store T) : list T :=
  deref (snd s) (context (fst s)).

(** The vector a history entry shows. *)
Definition snapshot (s : state * store T) (e : History.entry) : list T :=
  deref (snd s) (History.context e).

(** An event other than the reset button. *)
Definition keeps_history (e : event) : bool :=
  match e with
  | ClickReset => false
  | _ => true
  end.

(** Every reference the component holds denotes an array of the store. *)
Definition valid (s : state * store T) : Prop :=
  context (fst s) < length (snd s) /\
  Forall (fun e => History.context e < length (snd s)) (history (fst s)).

End WithNumber.
End DriftSimulator.

(* ================================================================== *)
(** ** RetrievalRecency (lines 205-235) *)

Module RetrievalRecency.
Section WithNumber.
Context {T : Type} `{Number T}.

Definition rho : T := num_lit 0.6.
Definition beta : T := num_lit 0.8.
Definition listLength : nat := 6.

(** An element of [states]. *)
Record state : Type := { item : option string; contextAtEncoding : list T }.

(** One turn of the loop of lines 215-222. *)
Definition present (rho beta : T) (acc : list state * list T) (i : nat)
  : list state * list T :=
  let (states, currentContext) := acc in
  let itemVec := createItemVector (Z.of_nat i) VECTOR_SIZE in
  let currentContext := add (scale currentContext rho) (scale itemVec beta) in
  (states ++ [{| item := nth_error ITEMS i; contextAtEncoding := currentContext |}],
   currentContext).

(** The loop, as a function of the constants it reads: [states] and
    [currentContext] when it ends. *)
Definition encode (rho beta : T) (listLength : nat) : list state * list T :=
  fold_left (present rho beta) (seq 0 listLength) ([], repeat zero VECTOR_SIZE).

Definition states : list state := fst (encode rho beta listLength).
Definition endOfListContext : list T := snd (encode rho beta listLength).

(** An element of [similarities]. *)
Record bar : Type := { name : option string; similarity : T; index : nat }.

Definition similarities : list bar :=
  map_from (fun state i =>
              {| name := item state;
                 similarity := dot endOfListContext (contextAtEncoding state);
                 index := i |}) 0 states.

End WithNumber.
End RetrievalRecency.

(* ================================================================== *)
(** ** RetrievalContiguity (lines 286-324) *)

(** What a JavaScript expression can throw here: a TypeError on reading a
    property of [undefined], a RangeError on [new Array(size)] for a [size]
    that is no array length. *)
Inductive exn : Type := TypeError | RangeError.

Inductive completion (A : Type) : Type :=
| Returns (a : A)
| Throws (e : exn).
Arguments Returns {A} a.
Arguments Throws {A} e.

Module RetrievalContiguity.
Section WithNumber.
Context {T : Type} `{Number T}.

Definition rho : T := num_lit 0.75.
Definition beta : T := num_lit 0.6.
Definition listLength : nat := 6.

(** An element of [encodingHistory]. *)
Record entry : Type := {
  item : option string;
  context : list T;
  originalIndex : nat
}.

(** One turn of the loop of lines 300-304. *)
Definition present (rho beta : T) (acc : list entry * list T) (i : nat)
  : list entry * list T :=
  let (hist, ctx) := acc in
  let itemVec := createItemVector (Z.of_nat i) VECTOR_SIZE in
  let ctx := add (scale ctx rho) (scale itemVec beta) in
  (hist ++ [{| item := nth_error ITEMS i; context := ctx; originalIndex := i |}], ctx).

(** The loop of [useMemo], as a function of the constants it reads. *)
Definition encode (rho beta : T) (listLength : nat) : list entry :=
  fst (fold_left (present rho beta) (seq 0 listLength) ([], repeat zero VECTOR_SIZE)).

Definition encodingHistory : list entry := encode rho beta listLength.

(** [recalledIndex === null ? encodingHistory[listLength - 1].context
                            : encodingHistory[recalledIndex].context]:
    the read of [.context] throws when the history has no such element. *)
Definition currentProbeContext (encodingHistory : list entry)
           (recalledIndex : option nat) : completion (list T) :=
  let position := match recalledIndex with
                  | None => listLength - 1
                  | Some k => k
                  end in
  match nth_error encodingHistory position with
  | Some e => Returns (context e)
  | None => Throws TypeError
  end.

(** An element of [activations]. *)
Record bar : Type := { name : option string; activation : T; isTarget : bool }.

(** The [map] of lines 316-324, for a probe. *)
Definition activate (probe : list T) (encodingHistory : list entry)
           (recalledIndex : option nat) : list bar :=
  map_from (fun e i =>
              {| name := item e;
                 activation := dot probe (context e);
                 isTarget := match recalledIndex with
                             | Some k => Nat.eqb i k
                             | None => false
                             end |}) 0 encodingHistory.

(** What a render computes from the history and [recalledIndex]. *)
Definition activations (encodingHistory : list entry)
           (recalledIndex : option nat) : completion (list bar) :=
  match currentProbeContext encodingHistory recalledIndex with
  | Returns probe => Returns (activate probe encodingHistory recalledIndex)
  | Throws e => Throws e
  end.

End WithNumber.
End RetrievalContiguity.

(* ================================================================== *)
(** ** normalize (lines 15-19)

    In binary64, the arithmetic of [Math.sqrt] and [/]; [===] on numbers is
    the IEEE equality. *)

Definition normalize (v : list float) : list float :=
  let mag :=
    PrimFloat.sqrt
      (reduce_from (fun sum val _ => (sum + val * val)%float) 0 v 0%float) in
  if (mag =? 0)%float then v else map (fun val => (val / mag)%float) v.

(* ================================================================== *)
(** ** VectorDisplay (lines 40-69): how much of a bar is filled *)

(** [Math.min(x, y)]: NaN when one of the two is, the smaller otherwise, and
    -0 before +0. *)
Definition Math_min (x y : float) : float :=
  if (is_nan x || is_nan y)%bool then nan
  else if (x <? y)%float then x
  else if (y <? x)%float then y
  else match classify x with
       | NZero => x
       | _ => y
       end.

(** [Math.min(Math.abs(val), 1)], the alpha of the background and the
    [scaleX] of the bar. *)
Definition fill (val : float) : float := Math_min (PrimFloat.abs val) 1%float.

(* ================================================================== *)
(** ** DriftSimulator: the caption (line 197) *)

(** [a || b] for a string [a] that may be undefined: [b] when [a] is
    undefined or empty. *)
Definition or_else (a : option string) (b : string) : string :=
  match a with
  | Some s => if String.eqb s EmptyString then b else s
  | None => b
  end.

(** [ITEMS[i]] for an integer [i]. *)
Definition ITEMS_at (i : Z) : option string :=
  if (i <? 0)%Z then None else nth_error ITEMS (Z.to_nat i).

(** [ITEMS[(step-1 + ITEMS.length) % ITEMS.length] || 'None'] *)
Definition previousItemName {T : Type} `{Number T}
           (st : DriftSimulator.state (T := T)) : string :=
  or_else
    (ITEMS_at (Z.rem (Z.of_nat (DriftSimulator.step st) - 1 + Z.of_nat (length ITEMS))
                     (Z.of_nat (length ITEMS))))
    "None".

(* ================================================================== *)
(** ** DriftSimulator, read on values

    The component of lines 93-126 once more, each array a value of its own
    (as if every holder kept a copy): what the component with shared arrays
    is compared with. *)

Module DriftValues.
Section WithNumber.
Context {T : Type} `{Number T}.

Record state : Type := {
  beta : T;
  rho : T;
  context : list T;
  history : list (option string * list T);
  step : nat
}.

Definition mount : state :=
  {| beta := num_lit 0.6; rho := num_lit 0.8; context := repeat zero 6;
     history := []; step := 0 |}.

Definition processNextItem (st : state) : state :=
  let itemIdx := step st mod length ITEMS in
  let itemVec := createItemVector (Z.of_nat itemIdx) VECTOR_SIZE in
  let decayedContext := scale (context st) (rho st) in
  let inputContext := scale itemVec (beta st) in
  let newContext := add decayedContext inputContext in
  {| beta := beta st; rho := rho st;
     context := newContext;
     history := history st ++ [(nth_error ITEMS itemIdx, newContext)];
     step := S (step st) |}.

Definition reset (st : state) : state :=
  {| beta := beta st; rho := rho st; context := repeat zero 6;
     history := []; step := 0 |}.

Definition handle (e : DriftSimulator.event (T := T)) (st : state) : state :=
  match e with
  | DriftSimulator.PresentItem => processNextItem st
  | DriftSimulator.ClickReset => reset st
  | DriftSimulator.ChangeRho v =>
      {| beta := beta st; rho := v; context := context st;
         history := history st; step := step st |}
  | DriftSimulator.ChangeBeta v =>
      {| beta := v; rho := rho st; context := context st;
         history := history st; step := step st |}
  end.

Definition run (es : list (DriftSimulator.event (T := T))) : state :=
  fold_left (fun st e => handle e st) es mount.

(** What the component with shared arrays shows: every reference replaced
    by the array it denotes. *)
Definition observe (s : DriftSimulator.state (T := T) * store T) : state :=
  {| beta := DriftSimulator.beta (fst s);
     rho := DriftSimulator.rho (fst s);
     context := DriftSimulator.currentContext s;
     history := map (fun e => (History.item e, DriftSimulator.snapshot s e))
                    (DriftSimulator.history (fst s));
     step := DriftSimulator.step (fst s) |}.

End WithNumber.
End DriftValues.

(* ================================================================== *)
(** ** RetrievalContiguity: the colour of a bar (line 382) *)

(** [recalledIndex || 100]: 100 when [recalledIndex] is null or 0. *)
Definition recalled_or_100 (recalledIndex : option nat) : nat :=
  match recalledIndex with
  | Some (S k) => S k
  | Some O => 100
  | None => 100
  end.

(** [entry.isTarget ? '#059669'
       : (Math.abs(index - (recalledIndex||100)) === 1 ? '#34d399' : '#d1fae5')] *)
Definition cellFill (isTarget : bool) (index : nat) (recalledIndex : option nat)
  : string :=
  if isTarget then "#059669"
  else if (Z.abs (Z.of_nat index - Z.of_nat (recalled_or_100 recalledIndex)) =? 1)%Z
       then "#34d399"
       else "#d1fae5".

(** The colours of the bars of a profile, in order. *)
Definition cellFills {T : Type} `{Number T}
           (bars : list (RetrievalContiguity.bar (T := T)))
           (recalledIndex : option nat) : list string :=
  map_from (fun entry index =>
              cellFill (RetrievalContiguity.isTarget entry) index recalledIndex)
           0 bars.

(* ================================================================== *)
(** ** App (lines 400-485): the slide shown *)

Module App.

Definition steps : list string :=
  ["Introduction"; "Context Drift"; "The Recency Effect"; "Mental Time Travel"]%string.

(** The buttons of the footer. *)
Inductive button : Type := Previous | Next.

(** [setCurrentStep(Math.max(0, currentStep - 1))] and
    [setCurrentStep(Math.min(steps.length - 1, currentStep + 1))]. *)
Definition click (b : button) (currentStep : Z) : Z :=
  match b with
  | Previous => Z.max 0 (currentStep - 1)
  | Next => Z.min (Z.of_nat (length steps) - 1) (currentStep + 1)
  end.

(** [disabled={currentStep === 0}] and
    [disabled={currentStep === steps.length - 1}]. *)
Definition disabled (b : button) (currentStep : Z) : bool :=
  match b with
  | Previous => (currentStep =? 0)%Z
  | Next => (currentStep =? Z.of_nat (length steps) - 1)%Z
  end.

(** [useState(0)], then the clicks. *)
Definition run (clicks : list button) : Z :=
  fold_left (fun currentStep b => click b currentStep) clicks 0%Z.

(** [steps[currentStep].title] *)
Definition title (currentStep : Z) : option string :=
  if (currentStep <? 0)%Z then None else nth_error steps (Z.to_nat currentStep).

End App.

(* ================================================================== *)
(** ** createItemVector (lines 32-36), for any integer size

    [new Array(size)] makes an array of [size] elements when [size] is an
    integer from 0 to 2^32 - 1 and throws a RangeError for any other; the
    [fill(0)] and the guarded write of [createItemVector] follow.  The
    memory of the engine is not modelled. *)

Definition MAX_ARRAY_LENGTH : Z := 2 ^ 32 - 1.

(** [new Array(size).fill(x)] *)
Definition new_Array_fill {T : Type} (size : Z) (x : T) : completion (list T) :=
  if ((0 <=? size)%Z && (size <=? MAX_ARRAY_LENGTH)%Z)%bool
  then Returns (repeat x (Z.to_nat size))
  else Throws RangeError.

Definition createItemVector_call {T : Type} `{Number T} (index size : Z)
  : completion (list T) :=
  match new_Array_fill size zero with
  | Returns v =>
      Returns (if ((0 <=? index)%Z && (index <? size)%Z)%bool
               then assign v (Z.to_nat index) one
               else v)
  | Throws e => Throws e
  end.

(* ================================================================== *)
(** ** DriftSimulator: what the sliders deliver (lines 142-146, 154-158)

    A slider is an [<input type="range" min="0" max="1" step="0.1">]: the
    value of its change event is one of 0, 0.1, ..., 1, and the handler is
    given that number. *)


(* ================================================================== *)
(** ** The tutorial as a whole (lines 400-485)

    [App] shows the component of the current step, and that component keeps
    a state of its own.  React unmounts the component of a step that is left
    and mounts that of the step entered: the state of the first is lost, the
    second starts from its first render. *)

Module Tutorial.
Section WithNumber.
Context {T : Type} `{Number T}.

(** The component shown, with its [useState] cells ([IntroSlide] and
    [RetrievalRecency] have none). *)
Inductive slide : Type :=
| IntroSlide
| Simulator (s : DriftSimulator.state (T := T) * store T)
| Recency
| Contiguity (recalledIndex : option nat).

(** [<CurrentComponent />] for [steps[currentStep].component], at its first
    render; there is no component outside the four steps. *)
Definition mount (currentStep : Z) : option slide :=
  match currentStep with
  | 0%Z => Some IntroSlide
  | 1%Z => Some (Simulator (DriftSimulator.run []))
  | 2%Z => Some Recency
  | 3%Z => Some (Contiguity None)
  | _ => None
  end.

Record state : Type := { currentStep : Z; shown : option slide }.

(** [useState(0)] *)
Definition start : state := {| currentStep := 0; shown := mount 0 |}.

(** What the user can do: the two buttons of the footer, the controls of the
    simulator (a change of a slider with the value delivered, see
    [slider_event]), and on the contiguity slide the button of item [i] and
    "Reset to End". *)
Inductive action : Type :=
| Footer (b : App.button)
| InSimulator (e : DriftSimulator.event (T := T))
| Recall (i : nat)
| ResetToEnd.

(** A control acts when it is on the screen: those of a slide when that
    slide is shown, the button of item [i] for the items of [ITEMS], and
    "Reset to End" while [recalledIndex !== null].  A footer button that
    leaves [currentStep] as it is changes nothing. *)
Definition act (a : action) (st : state) : state :=
  match a with
  | Footer b =>
      let next := App.click b (currentStep st) in
      if (next =? currentStep st)%Z then st
      else {| currentStep := next; shown := mount next |}
  | InSimulator e =>
      match shown st with
      | Some (Simulator s) =>
          {| currentStep := currentStep st;
             shown := Some (Simulator (DriftSimulator.handle e (fst s) (snd s))) |}
      | _ => st
      end
  | Recall i =>
      match shown st with
      | Some (Contiguity _) =>
          if Nat.ltb i (length ITEMS)
          then {| currentStep := currentStep st; shown := Some (Contiguity (Some i)) |}
          else st
      | _ => st
      end
  | ResetToEnd =>
      match shown st with
      | Some (Contiguity (Some _)) =>
          {| currentStep := currentStep st; shown := Some (Contiguity None) |}
      | _ => st
      end
  end.

Definition run (actions : list action) : state :=
  fold_left (fun st a => act a st) actions start.


(** The probe of the contiguity slide, when it is the slide shown. *)
Definition probe (st : state) : option (option nat) :=
  match shown st with
  | Some (Contiguity recalledIndex) => Some recalledIndex
  | _ => None
  end.

(** The activations a render computes (lines 312-324): those of the
    contiguity slide, from its own history; no other component computes
    any. *)
Definition activations (st : state)
  : option (completion (list (RetrievalContiguity.bar (T := T)))) :=
  match shown st with
  | Some (Contiguity recalledIndex) =>
      Some (RetrievalContiguity.activations
              RetrievalContiguity.encodingHistory recalledIndex)
  | _ => None
  end.

End WithNumber.
End Tutorial.

(* ================================================================== *)
(** ** RetrievalRecency: the similarities of any run

    [similarities] (lines 231-235) as a function of the constants the loop
    reads; [RetrievalRecency.similarities] is its value at 0.6, 0.8 and 6. *)

Definition recency_similarities {T : Type} `{Number T}
           (rho beta : T) (listLength : nat) : list (RetrievalRecency.bar (T := T)) :=
  let states := fst (RetrievalRecency.encode rho beta listLength) in
  let endOfListContext := snd (RetrievalRecency.encode rho beta listLength) in
  map_from (fun state i =>
              {| RetrievalRecency.name := RetrievalRecency.item state;
                 RetrievalRecency.similarity :=
                   dot endOfListContext (RetrievalRecency.contextAtEncoding state);
                 RetrievalRecency.index := i |}) 0 states.

(* ================================================================== *)
(** * Properties *)

(** ** Arrays *)

Lemma map_from_length {A B : Type} (f : A -> nat -> B) (v : list A) :
  forall k, length (map_from f k v) = length v.
Proof.
  induction v as [|val v IH]; intros k; simpl; [reflexivity|].
  now rewrite IH.
Qed.

Lemma nth_error_map_from {A B : Type} (f : A -> nat -> B) (v : list A) :
  forall k i, nth_error (map_from f k v) i =
              option_map (fun val => f val (k + i)) (nth_error v i).
Proof.
  induction v as [|val v IH]; intros k [|i]; simpl; try reflexivity.
  - now rewrite Nat.add_0_r.
  - rewrite IH. now rewrite Nat.add_succ_r.
Qed.

Lemma assign_length {A : Type} (v : list A) :
  forall i x, length (assign v i x) = length v.
Proof.
  induction v as [|y v IH]; intros [|i] x; simpl; try reflexivity.
  now rewrite IH.
Qed.

Lemma nth_error_assign {A : Type} (v : list A) :
  forall i x j,
    nth_error (assign v i x) j =
    if (Nat.eqb j i && Nat.ltb j (length v))%bool then Some x else nth_error v j.
Proof.
  induction v as [|y v IH]; intros [|i] x [|j]; simpl; try reflexivity.
  - now destruct (Nat.eqb j i).
  - rewrite IH. reflexivity.
Qed.

Lemma nth_error_repeat_lt {A : Type} (a : A) (n j : nat) :
  nth_error (repeat a n) j = if Nat.ltb j n then Some a else None.
Proof.
  revert j; induction n as [|n IH]; intros [|j]; simpl; try reflexivity.
  rewrite IH. reflexivity.
Qed.

(** Two lists with the same elements at every position are equal. *)
Lemma nth_error_ext {A : Type} (v w : list A) :
  (forall i, nth_error v i = nth_error w i) -> v = w.
Proof.
  revert w; induction v as [|x v IH]; intros [|y w] E.
  - reflexivity.
  - discriminate (E 0).
  - discriminate (E 0).
  - f_equal.
    + specialize (E 0). simpl in E. congruence.
    + apply IH. intros i. exact (E (S i)).
Qed.

(** ** The math helpers *)

Section MathHelperFacts.
Context {T : Type} `{Number T}.

Lemma scale_length (v : list T) (s : T) : length (scale v s) = length v.
Proof. apply length_map. Qed.

Lemma add_length (v1 v2 : list T) : length (add v1 v2) = length v1.
Proof. apply map_from_length. Qed.

Lemma nth_error_scale (v : list T) (s : T) (i : nat) :
  nth_error (scale v s) i = option_map (fun val => (val * s)%num) (nth_error v i).
Proof. apply nth_error_map. Qed.

Lemma nth_error_add (v1 v2 : list T) (i : nat) :
  nth_error (add v1 v2) i =
  option_map (fun val => add_undef val (nth_error v2 i)) (nth_error v1 i).
Proof. unfold add. now rewrite nth_error_map_from. Qed.

(** The elements of [createItemVector index size]. *)
Lemma nth_error_createItemVector (index : Z) (size j : nat) :
  nth_error (createItemVector index size) j =
  if Nat.ltb j size
  then Some (if (Z.of_nat j =? index)%Z then one else zero)
  else None.
Proof.
  unfold createItemVector.
  destruct (0 <=? index)%Z eqn:E0; destruct (index <? Z.of_nat size)%Z eqn:E1; simpl.
  - rewrite nth_error_assign, repeat_length, nth_error_repeat_lt.
    apply Z.leb_le in E0. apply Z.ltb_lt in E1.
    destruct (Nat.ltb j size) eqn:Ej.
    + rewrite andb_true_r.
      destruct (Nat.eqb j (Z.to_nat index)) eqn:Ei.
      * apply Nat.eqb_eq in Ei.
        replace (Z.of_nat j =? index)%Z with true; [reflexivity|].
        symmetry. apply Z.eqb_eq. lia.
      * apply Nat.eqb_neq in Ei.
        replace (Z.of_nat j =? index)%Z with false; [reflexivity|].
        symmetry. apply Z.eqb_neq. lia.
    + rewrite andb_false_r. reflexivity.
  - rewrite nth_error_repeat_lt. destruct (Nat.ltb j size) eqn:Ej; [|reflexivity].
    apply Nat.ltb_lt in Ej. apply Z.leb_le in E0. apply Z.ltb_ge in E1.
    replace (Z.of_nat j =? index)%Z with false; [reflexivity|].
    symmetry. apply Z.eqb_neq. lia.
  - rewrite nth_error_repeat_lt. destruct (Nat.ltb j size) eqn:Ej; [|reflexivity].
    apply Z.leb_gt in E0.
    replace (Z.of_nat j =? index)%Z with false; [reflexivity|].
    symmetry. apply Z.eqb_neq. lia.
  - rewrite nth_error_repeat_lt. destruct (Nat.ltb j size) eqn:Ej; [|reflexivity].
    apply Z.leb_gt in E0.
    replace (Z.of_nat j =? index)%Z with false; [reflexivity|].
    symmetry. apply Z.eqb_neq. lia.
Qed.

Lemma createItemVector_length (index : Z) (size : nat) :
  length (createItemVector (T := T) index size) = size.
Proof.
  unfold createItemVector.
  destruct ((0 <=? index)%Z && (index <? Z.of_nat size)%Z)%bool;
    now rewrite ?assign_length, repeat_length.
Qed.

Lemma createItemVector_outside (index : Z) (size : nat) :
  ~ (0 <= index < Z.of_nat size)%Z ->
  createItemVector (T := T) index size = repeat zero size.
Proof.
  intros Hout. unfold createItemVector.
  destruct (0 <=? index)%Z eqn:E0; destruct (index <? Z.of_nat size)%Z eqn:E1;
    simpl; try reflexivity.
  apply Z.leb_le in E0. apply Z.ltb_lt in E1. lia.
Qed.

(** One element of the update [add (scale old rho) (scale itemVector beta)]. *)
Lemma nth_error_update (old itemVector : list T) (rho beta : T) (i : nat) :
  nth_error (add (scale old rho) (scale itemVector beta)) i =
  option_map
    (fun x => add_undef (x * rho)%num
                (option_map (fun y => (y * beta)%num) (nth_error itemVector i)))
    (nth_error old i).
Proof.
  rewrite nth_error_add, !nth_error_scale.
  now destruct (nth_error old i).
Qed.

End MathHelperFacts.

(** ** The two carriers *)

(** binary64 multiplication commutes: the product of the source, [val * s],
    is the product [s * val] of the written rule. *)
Lemma float_mul_comm (x y : float) : (x * y)%float = (y * x)%float.
Proof.
  apply Prim2SF_inj. rewrite !mul_spec.
  destruct (Prim2SF x) as [sx|sx| |sx mx ex], (Prim2SF y) as [sy|sy| |sy my ey];
    simpl; try reflexivity; try (now rewrite xorb_comm).
  unfold SF64mul, SFmul.
  now rewrite xorb_comm, Pos.mul_comm, Z.add_comm.
Qed.

Lemma rat_eqb_eq (x y : rat) : rat_eqb x y = true -> x = y.
Proof.
  destruct x as [a|], y as [b|]; simpl; intros E; try discriminate; [|reflexivity].
  f_equal. apply Qc_is_canon. now apply Qeq_bool_iff.
Qed.

Lemma rats_eqb_eq (v w : list rat) : rats_eqb v w = true -> v = w.
Proof.
  revert w; induction v as [|x v IH]; intros [|y w]; simpl; intros E;
    try discriminate; [reflexivity|].
  apply andb_prop in E. destruct E as [E1 E2].
  f_equal; [now apply rat_eqb_eq | now apply IH].
Qed.

Lemma rat_exact : ExactArithmetic rat.
Proof.
  split.
  - intros [a|]; simpl; [|reflexivity]. f_equal. ring.
  - intros [a|]; simpl; [|reflexivity]. f_equal. ring.
  - intros [a|]; simpl; [|reflexivity]. f_equal. ring.
  - intros [a|] Ha; simpl; [|now elim Ha]. unfold zero; simpl. f_equal. ring.
  - intros [a|] [b|]; simpl; try reflexivity. f_equal. ring.
  - intros [a|] [b|] [c|]; simpl; try reflexivity. f_equal. ring.
Qed.

(** ** The store *)

Section StoreFacts.
Context {T : Type} `{Number T}.

Lemma deref_old (h h' : store T) (r : ref) :
  r < length h -> deref (h ++ h') r = deref h r.
Proof. intros Hr. unfold deref. now apply app_nth1. Qed.

Lemma deref_at (h h' : store T) (a : list T) (k : nat) :
  k = length h -> deref (h ++ a :: h') k = a.
Proof. intros ->. unfold deref. apply nth_middle. Qed.

Lemma assign_last {A : Type} (h : list A) (a b : A) :
  assign (h ++ [a]) (length h) b = h ++ [b].
Proof. induction h as [|x h IH]; simpl; [reflexivity|]. now rewrite IH. Qed.

(** [createItemVector] on references allocates the array that
    [createItemVector] on values describes, and touches no other. *)
Lemma createItemVector_ref_spec (index : Z) (size : nat) (h : store T) :
  createItemVector_ref index size h = new_array (createItemVector index size) h.
Proof.
  unfold createItemVector_ref, createItemVector, bind, new_array, write, ret.
  destruct ((0 <=? index)%Z && (index <? Z.of_nat size)%Z)%bool; [|reflexivity].
  rewrite (deref_at h [] _ (length h) eq_refl).
  now rewrite assign_last.
Qed.

Lemma scale_ref_spec (v : ref) (s : T) (h : store T) :
  scale_ref v s h = (length h, h ++ [scale (deref h v) s]).
Proof. reflexivity. Qed.

Lemma add_ref_spec (v1 v2 : ref) (h : store T) :
  add_ref v1 v2 h = (length h, h ++ [add (deref h v1) (deref h v2)]).
Proof. reflexivity. Qed.

End StoreFacts.

(** ** DriftSimulator *)

Section DriftFacts.
Context {T : Type} `{Number T}.
Import DriftSimulator.

(** One press of the button, on a state whose context is in the store:
    four arrays are allocated, none is changed, and the last of the four
    is both the new context and the snapshot of the new history entry. *)
Lemma processNextItem_spec (st : state) (h : store T) :
  context st < length h ->
  let itemVec := createItemVector (Z.of_nat (step st mod length ITEMS)) VECTOR_SIZE in
  let decayedContext := scale (deref h (context st)) (rho st) in
  let inputContext := scale itemVec (beta st) in
  let newContext := add decayedContext inputContext in
  processNextItem st h =
  ({| beta := beta st; rho := rho st;
      context := length h + 3;
      history := history st ++
                 [{| History.item := currentItemName st;
                     History.context := length h + 3 |}];
      step := S (step st) |},
   h ++ [itemVec; decayedContext; inputContext; newContext]).
Proof.
  intros Hc. cbv zeta.
  unfold processNextItem, bind.
  rewrite createItemVector_ref_spec. unfold new_array.
  rewrite scale_ref_spec, scale_ref_spec, add_ref_spec. unfold ret.
  rewrite !length_app. cbn [length].
  replace (length h + 1 + 1 + 1) with (length h + 3) by lia.
  repeat first
    [ rewrite deref_at by (rewrite ?length_app; simpl; lia)
    | rewrite deref_old by (rewrite ?length_app; simpl; lia) ].
  rewrite <- !app_assoc. reflexivity.
Qed.

Lemma reset_spec (st : state) (h : store T) :
  reset st h =
  ({| beta := beta st; rho := rho st; context := length h;
      history := []; step := 0 |},
   h ++ [repeat zero 6]).
Proof. reflexivity. Qed.

Lemma handle_all_app (es later : list event) :
  forall (st : state) (h : store T),
    handle_all (es ++ later) st h =
    handle_all later (fst (handle_all es st h)) (snd (handle_all es st h)).
Proof.
  induction es as [|e es IH]; intros st h; simpl; [reflexivity|].
  unfold bind. destruct (handle e st h) as [st1 h1]. apply IH.
Qed.

Lemma run_app (es later : list event) :
  run (es ++ later) = handle_all later (fst (run es)) (snd (run es)).
Proof.
  unfold run, bind. destruct (mount []) as [st0 h0]. apply handle_all_app.
Qed.

(** An event allocates arrays and changes none of the store. *)
Lemma handle_extends (e : event) (st : state) (h : store T) :
  context st < length h ->
  exists h', snd (handle e st h) = h ++ h'.
Proof.
  intros Hc. destruct e; cbn [handle].
  - rewrite (processNextItem_spec st h Hc). simpl. eauto.
  - rewrite reset_spec. simpl. eauto.
  - exists []. simpl. now rewrite app_nil_r.
  - exists []. simpl. now rewrite app_nil_r.
Qed.

Lemma handle_valid (e : event) (st : state) (h : store T) :
  valid (st, h) -> valid (handle e st h).
Proof.
  intros [Hc Hh]. simpl in Hc, Hh. destruct e; cbn [handle].
  - rewrite (processNextItem_spec st h Hc). split; simpl.
    + rewrite length_app. simpl. lia.
    + apply Forall_app. split.
      * eapply Forall_impl; [|exact Hh]. intros a Ha. simpl in Ha.
        rewrite length_app. lia.
      * constructor; [|constructor]. simpl. rewrite length_app. simpl. lia.
  - rewrite reset_spec. split; simpl.
    + rewrite length_app. simpl. lia.
    + constructor.
  - split; assumption.
  - split; assumption.
Qed.

Lemma handle_all_valid (es : list event) :
  forall (st : state) (h : store T),
    valid (st, h) -> valid (handle_all es st h).
Proof.
  induction es as [|e es IH]; intros st h Hv; simpl; [exact Hv|].
  unfold bind. pose proof (handle_valid e st h Hv) as Hv'.
  destruct (handle e st h) as [st1 h1]. now apply IH.
Qed.

Lemma handle_all_extends (es : list event) :
  forall (st : state) (h : store T),
    valid (st, h) ->
    exists h', snd (handle_all es st h) = h ++ h'.
Proof.
  induction es as [|e es IH]; intros st h Hv; simpl.
  - exists []. now rewrite app_nil_r.
  - unfold bind.
    pose proof (handle_valid e st h Hv) as Hv'.
    destruct (handle_extends e st h (proj1 Hv)) as [h1' E1].
    destruct (handle e st h) as [st1 h1]. simpl in E1. subst h1.
    destruct (IH st1 _ Hv') as [h2' E2].
    exists (h1' ++ h2'). now rewrite E2, app_assoc.
Qed.

Lemma run_valid (es : list event) : valid (run es).
Proof.
  unfold run, bind. simpl. apply handle_all_valid.
  split; simpl; [lia | constructor].
Qed.

(** Events other than the reset only append to the history. *)
Lemma handle_all_history (es : list event) :
  forallb keeps_history es = true ->
  forall (st : state) (h : store T),
    exists more, history (fst (handle_all es st h)) = history st ++ more.
Proof.
  induction es as [|e es IH]; intros Hk st h; simpl.
  - exists []. now rewrite app_nil_r.
  - simpl in Hk. apply andb_prop in Hk. destruct Hk as [He Hes].
    unfold bind.
    assert (exists m1, history (fst (handle e st h)) = history st ++ m1) as [m1 E1].
    { destruct e; cbn [handle]; try discriminate.
      - unfold processNextItem, bind.
        repeat match goal with
               | |- context [let (_, _) := ?c in _] => destruct c
               end.
        simpl. eexists. reflexivity.
      - exists []. now rewrite app_nil_r.
      - exists []. now rewrite app_nil_r. }
    destruct (handle e st h) as [st1 h1]. simpl in E1.
    destruct (IH Hes st1 h1) as [m2 E2].
    exists (m1 ++ m2). now rewrite E2, E1, app_assoc.
Qed.

End DriftFacts.

Section DriftRuns.
Context {T : Type} `{Number T}.
Import DriftSimulator.

Lemma deref_new (h l : store T) (k : nat) :
  deref (h ++ l) (length h + k) = nth k l [].
Proof. unfold deref. apply app_nth2_plus. Qed.

(** What one press of the button does to a state the component reaches. *)
Lemma press_spec (es : list event) :
  let s := run es in
  let s' := run (es ++ [PresentItem]) in
  currentContext s' =
    add (scale (currentContext s) (rho (fst s)))
        (scale (createItemVector (Z.of_nat (step (fst s) mod length ITEMS)) VECTOR_SIZE)
               (beta (fst s))) /\
  rho (fst s') = rho (fst s) /\
  beta (fst s') = beta (fst s) /\
  step (fst s') = S (step (fst s)) /\
  history (fst s') =
    history (fst s) ++ [{| History.item := currentItemName (fst s);
                           History.context := context (fst s') |}].
Proof.
  cbv zeta. rewrite run_app.
  destruct (run_valid es) as [Hc _].
  destruct (run es) as [st h]. simpl in Hc.
  cbn [handle_all fst snd]. unfold bind.
  cbn [handle]. rewrite (processNextItem_spec st h Hc).
  unfold currentContext. cbn [ret fst snd context rho beta step history].
  rewrite deref_new. cbn [nth]. repeat split.
Qed.

(** The array a history entry refers to is the one the state holds as its
    context when the entry is appended: one object, two holders. *)
Lemma snapshot_is_shared (es : list event) :
  let s := run es in
  let s' := run (es ++ [PresentItem]) in
  history (fst s') =
  history (fst s) ++ [{| History.item := currentItemName (fst s);
                         History.context := context (fst s') |}].
Proof. exact (proj2 (proj2 (proj2 (proj2 (press_spec es))))). Qed.

End DriftRuns.

(** ** The loops of the two retrieval slides *)

Section LoopFacts.
Context {T : Type} `{Number T}.

Lemma encode_S (rho beta : T) (k : nat) :
  RetrievalRecency.encode rho beta (S k) =
  RetrievalRecency.present rho beta (RetrievalRecency.encode rho beta k) k.
Proof.
  unfold RetrievalRecency.encode. now rewrite seq_S, fold_left_app.
Qed.

Lemma encode_context_S (rho beta : T) (k : nat) :
  snd (RetrievalRecency.encode rho beta (S k)) =
  add (scale (snd (RetrievalRecency.encode rho beta k)) rho)
      (scale (createItemVector (Z.of_nat k) VECTOR_SIZE) beta).
Proof.
  rewrite encode_S. now destruct (RetrievalRecency.encode rho beta k).
Qed.

Lemma encode_states_S (rho beta : T) (k : nat) :
  fst (RetrievalRecency.encode rho beta (S k)) =
  fst (RetrievalRecency.encode rho beta k) ++
  [{| RetrievalRecency.item := nth_error ITEMS k;
      RetrievalRecency.contextAtEncoding :=
        snd (RetrievalRecency.encode rho beta (S k)) |}].
Proof.
  rewrite encode_context_S, encode_S.
  now destruct (RetrievalRecency.encode rho beta k).
Qed.

Lemma encode_context_length (rho beta : T) (k : nat) :
  length (snd (RetrievalRecency.encode rho beta k)) = VECTOR_SIZE.
Proof.
  induction k as [|k IH]; [apply repeat_length|].
  now rewrite encode_context_S, add_length, scale_length.
Qed.

Lemma encode_states_length (rho beta : T) (k : nat) :
  length (fst (RetrievalRecency.encode rho beta k)) = k.
Proof.
  induction k as [|k IH]; [reflexivity|].
  rewrite encode_states_S, length_app, IH. simpl. lia.
Qed.

(** The state the last turn appends holds the context the loop ends with. *)
Lemma encode_last_state (rho beta : T) (k : nat) :
  1 <= k ->
  option_map RetrievalRecency.contextAtEncoding
             (nth_error (fst (RetrievalRecency.encode rho beta k)) (k - 1)) =
  Some (snd (RetrievalRecency.encode rho beta k)).
Proof.
  destruct k as [|k]; [lia|]. intros _.
  rewrite encode_states_S.
  replace (S k - 1) with (length (fst (RetrievalRecency.encode rho beta k)) + 0)
    by (rewrite encode_states_length; lia).
  now rewrite nth_error_app2, Nat.add_comm, Nat.add_sub by lia.
Qed.

(** The contiguity slide runs the same loop. *)
Lemma contiguity_encode_contexts (rho beta : T) (k : nat) :
  map RetrievalContiguity.context (RetrievalContiguity.encode rho beta k) =
  map RetrievalRecency.contextAtEncoding (fst (RetrievalRecency.encode rho beta k)).
Proof.
  unfold RetrievalContiguity.encode, RetrievalRecency.encode.
  assert (forall l a b (c : list T),
             map RetrievalContiguity.context a =
             map RetrievalRecency.contextAtEncoding b ->
             let r1 := fold_left (RetrievalContiguity.present rho beta) l (a, c) in
             let r2 := fold_left (RetrievalRecency.present rho beta) l (b, c) in
             map RetrievalContiguity.context (fst r1) =
             map RetrievalRecency.contextAtEncoding (fst r2)) as G.
  { induction l as [|i l IH]; intros a b c E; simpl; [exact E|].
    apply IH. rewrite !map_app, E. reflexivity. }
  now apply G.
Qed.

(** The simulator, its sliders set to rho and beta, after [k <= 6]
    presentations holds the context of the loop after [k] turns. *)
Lemma drift_run_is_loop (rho beta : T) (k : nat) :
  k <= 6 ->
  let s := DriftSimulator.run
             (DriftSimulator.ChangeRho rho :: DriftSimulator.ChangeBeta beta ::
              repeat DriftSimulator.PresentItem k) in
  DriftSimulator.rho (fst s) = rho /\
  DriftSimulator.beta (fst s) = beta /\
  DriftSimulator.step (fst s) = k /\
  DriftSimulator.currentContext s = snd (RetrievalRecency.encode rho beta k).
Proof.
  cbv zeta. induction k as [|k IH]; intros Hk.
  - repeat split.
  - destruct (IH ltac:(lia)) as (Er & Eb & Es & Ec).
    change (DriftSimulator.ChangeRho rho :: DriftSimulator.ChangeBeta beta ::
            repeat DriftSimulator.PresentItem (S k))
      with ([DriftSimulator.ChangeRho rho; DriftSimulator.ChangeBeta beta] ++
            DriftSimulator.PresentItem :: repeat DriftSimulator.PresentItem k).
    rewrite repeat_cons, app_assoc.
    destruct (press_spec
                ([DriftSimulator.ChangeRho rho; DriftSimulator.ChangeBeta beta] ++
                 repeat DriftSimulator.PresentItem k))
      as (Pc & Pr & Pb & Ps & _).
    cbn [app] in Pc, Pr, Pb, Ps, Er, Eb, Es, Ec |- *.
    rewrite Pc, Pr, Pb, Ps, Er, Eb, Es, Ec, encode_context_S.
    repeat split.
    replace (k mod length ITEMS) with k; [reflexivity|].
    symmetry. apply Nat.mod_small. simpl. lia.
Qed.

End LoopFacts.

(** C5. For every sequence of presentations, once a record has been appended
    to the encoding history, no later presentItem call (context update)
    changes any value of any previously stored snapshot: the array a stored
    entry refers to is, after every later event of the component, what it
    was before them; and as long as the history is not reset the entry stays
    at its position. *)
Theorem snapshot_independence
        (T : Type) (N : Number T)
        (es later : list (DriftSimulator.event (T := T)))
        (i : nat) (e : History.entry) :
  nth_error (DriftSimulator.history (fst (DriftSimulator.run es))) i = Some e ->
  DriftSimulator.snapshot (DriftSimulator.run (es ++ later)) e =
  DriftSimulator.snapshot (DriftSimulator.run es) e /\
  (forallb DriftSimulator.keeps_history later = true ->
   nth_error (DriftSimulator.history (fst (DriftSimulator.run (es ++ later)))) i = Some e).
Proof.
  intros Hi. rewrite run_app.
  pose proof (run_valid es) as Hv.
  destruct (DriftSimulator.run es) as [st h]. cbn [fst snd] in *.
  split.
  - destruct (handle_all_extends later st h Hv) as [h' E].
    unfold DriftSimulator.snapshot. cbn [snd]. rewrite E.
    apply deref_old.
    destruct Hv as [_ Hh]. cbn [fst snd] in Hh.
    rewrite Forall_forall in Hh. apply Hh.
    eapply nth_error_In. exact Hi.
  - intros Hk. destruct (handle_all_history later Hk st h) as [more E].
    rewrite E. rewrite nth_error_app1; [exact Hi|].
    apply nth_error_Some. congruence.
Qed.

(** An instance of C5 in binary64: the entry of "Apple" and its snapshot
    after two more presentations. *)
Lemma snapshot_independence_witness :
  let apple := {| History.item := Some "Apple"%string; History.context := 4 |} in
  let es := [DriftSimulator.PresentItem (T := float)] in
  let later := [DriftSimulator.PresentItem (T := float); DriftSimulator.PresentItem] in
  nth_error (DriftSimulator.history (fst (DriftSimulator.run es))) 0 = Some apple /\
  DriftSimulator.snapshot (DriftSimulator.run (es ++ later)) apple =
  DriftSimulator.snapshot (DriftSimulator.run es) apple /\
  (forallb DriftSimulator.keeps_history later = true ->
   nth_error (DriftSimulator.history (fst (DriftSimulator.run (es ++ later)))) 0 =
   Some apple).
Proof.
  cbv zeta. split.
  - vm_compute. reflexivity.
  - apply (snapshot_independence float float_Number
             [DriftSimulator.PresentItem]
             [DriftSimulator.PresentItem; DriftSimulator.PresentItem] 0).
    vm_compute. reflexivity.
Defined.

(** C1. For every current context vector old, every item vector, and
    parameters rho and beta, the context update produces exactly
    new = (rho * old) + (beta * itemVector) element-wise, with no
    renormalization: this is what [add (scale old rho) (scale itemVector beta)]
    is on every carrier, what a press of the simulator's button and a turn
    of the recency loop compute, and in binary64 the products are those of
    the rule as written.  In particular, starting from the zero 6-vector with
    rho = 0.6 and beta = 0.8, presenting item 0 yields [0.8,0,0,0,0,0] and
    then presenting item 1 yields [0.48,0.8,0,0,0,0], in binary64 as in
    exact arithmetic. *)
Theorem context_update_rule :
  (forall (T : Type) (N : Number T) (old itemVector : list T) (rho beta : T),
      length (add (scale old rho) (scale itemVector beta)) = length old /\
      forall i x y,
        nth_error old i = Some x -> nth_error itemVector i = Some y ->
        nth_error (add (scale old rho) (scale itemVector beta)) i =
        Some (x * rho + y * beta)%num) /\
  (forall (old itemVector : list float) (rho beta : float) i x y,
      nth_error old i = Some x -> nth_error itemVector i = Some y ->
      nth_error (add (scale old rho) (scale itemVector beta)) i =
      Some (rho * x + beta * y)%float) /\
  (forall (T : Type) (N : Number T) (es : list (DriftSimulator.event (T := T))),
      let s := DriftSimulator.run es in
      DriftSimulator.currentContext
        (DriftSimulator.run (es ++ [DriftSimulator.PresentItem])) =
      add (scale (DriftSimulator.currentContext s) (DriftSimulator.rho (fst s)))
          (scale (createItemVector
                    (Z.of_nat (DriftSimulator.step (fst s) mod length ITEMS))
                    VECTOR_SIZE)
                 (DriftSimulator.beta (fst s)))) /\
  (forall (T : Type) (N : Number T) (rho beta : T) states currentContext i,
      snd (RetrievalRecency.present rho beta (states, currentContext) i) =
      add (scale currentContext rho)
          (scale (createItemVector (Z.of_nat i) VECTOR_SIZE) beta)) /\
  (let contexts :=
     map RetrievalRecency.contextAtEncoding (RetrievalRecency.states (T := float)) in
   nth 0 contexts [] = [0.8; 0; 0; 0; 0; 0]%float /\
   nth 1 contexts [] = [0.48; 0.8; 0; 0; 0; 0]%float) /\
  (let sliders := [DriftSimulator.ChangeRho (T := float) (num_lit 0.6);
                   DriftSimulator.ChangeBeta (num_lit 0.8)] in
   DriftSimulator.currentContext (DriftSimulator.run sliders) =
     [0; 0; 0; 0; 0; 0]%float /\
   DriftSimulator.currentContext
     (DriftSimulator.run (sliders ++ [DriftSimulator.PresentItem])) =
     [0.8; 0; 0; 0; 0; 0]%float /\
   DriftSimulator.currentContext
     (DriftSimulator.run
        (sliders ++ [DriftSimulator.PresentItem; DriftSimulator.PresentItem])) =
     [0.48; 0.8; 0; 0; 0; 0]%float) /\
  (let contexts :=
     map RetrievalRecency.contextAtEncoding (RetrievalRecency.states (T := rat)) in
   nth 0 contexts [] = map num_lit [0.8; 0; 0; 0; 0; 0]%Q /\
   nth 1 contexts [] = map num_lit [0.48; 0.8; 0; 0; 0; 0]%Q).
Proof.
  split; [|split; [|split; [|split; [|split; [|split]]]]].
  - intros T N old itemVector rho beta. split.
    + now rewrite add_length, scale_length.
    + intros i x y Hx Hy. rewrite nth_error_update, Hx, Hy. reflexivity.
  - intros old itemVector rho beta i x y Hx Hy.
    rewrite nth_error_update, Hx, Hy. simpl.
    now rewrite (float_mul_comm x rho), (float_mul_comm y beta).
  - intros T N es. exact (proj1 (press_spec es)).
  - reflexivity.
  - cbv zeta. split; vm_compute; reflexivity.
  - cbv zeta. repeat split; vm_compute; reflexivity.
  - cbv zeta. split; apply rats_eqb_eq; vm_compute; reflexivity.
Qed.

(** An instance of C1 in binary64: the first component when item 1 follows
    item 0. *)
Lemma context_update_rule_witness :
  let old := [0.8; 0; 0; 0; 0; 0]%float in
  let itemVector := createItemVector (T := float) 1 VECTOR_SIZE in
  nth_error old 0 = Some 0.8%float /\
  nth_error itemVector 0 = Some 0%float /\
  nth_error (add (scale old 0.6%float) (scale itemVector 0.8%float)) 0 =
  Some (0.8 * 0.6 + 0 * 0.8)%float.
Proof.
  cbv zeta. split; [reflexivity|]. split; [reflexivity|].
  apply (proj2 (proj1 context_update_rule float float_Number
                      [0.8; 0; 0; 0; 0; 0]%float
                      (createItemVector 1 VECTOR_SIZE) 0.6%float 0.8%float)
               0 0.8%float 0%float); reflexivity.
Defined.

(** [createItemVector] on a list length: the vector has that length, entry
    j is 1 when j is the index and 0 when it is not, and every entry is 0
    when the index is outside [0, size). *)
Lemma createItemVector_entries
      {T : Type} `{Number T} (index : Z) (size : nat) :
  let v := createItemVector (T := T) index size in
  length v = size /\
  (forall j, j < size ->
             nth_error v j = Some (if (Z.of_nat j =? index)%Z then one else zero)) /\
  (forall j x, nth_error v j = Some x ->
               x = zero \/ (x = one /\ Z.of_nat j = index)) /\
  (~ (0 <= index < Z.of_nat size)%Z -> v = repeat zero size).
Proof.
  cbv zeta. split; [apply createItemVector_length|]. split; [|split].
  - intros j Hj. rewrite nth_error_createItemVector.
    apply Nat.ltb_lt in Hj. now rewrite Hj.
  - intros j x. rewrite nth_error_createItemVector.
    destruct (Nat.ltb j size); [|discriminate].
    destruct (Z.of_nat j =? index)%Z eqn:E; intros [= <-]; [right|left]; [|reflexivity].
    split; [reflexivity|]. now apply Z.eqb_eq.
  - apply createItemVector_outside.
Qed.

(** The call returns what [createItemVector] builds when the size is an
    array length, and throws when it is not. *)
Lemma createItemVector_call_spec
      {T : Type} `{Number T} (index size : Z) :
  createItemVector_call (T := T) index size =
  if ((0 <=? size)%Z && (size <=? MAX_ARRAY_LENGTH)%Z)%bool
  then Returns (createItemVector index (Z.to_nat size))
  else Throws RangeError.
Proof.
  unfold createItemVector_call, new_Array_fill, createItemVector.
  destruct (0 <=? size)%Z eqn:E0; [|reflexivity].
  destruct (size <=? MAX_ARRAY_LENGTH)%Z; [|reflexivity].
  cbn [andb]. apply Z.leb_le in E0. now rewrite Z2Nat.id.
Qed.

(** C9 (as amended).  For every integer index and every size from 0 to
    2^32 - 1, createItemVector(index, size) returns (without failing) a
    vector of length size whose entries are all 0 except at most one entry
    equal to 1, the one at the index; when index is outside [0, size), the
    result is the all-zero vector of length size.  For every other integer
    size (a negative one, or 2^32 and more) the call does not return:
    [new Array(size)] throws a RangeError, whatever the index. *)
Theorem createItemVector_returns_below_limit
        (T : Type) (N : Number T) (index size : Z) :
  ((0 <= size <= MAX_ARRAY_LENGTH)%Z ->
   exists v,
     createItemVector_call (T := T) index size = Returns v /\
     length v = Z.to_nat size /\
     (forall j, j < Z.to_nat size ->
                nth_error v j = Some (if (Z.of_nat j =? index)%Z then one else zero)) /\
     (forall j x, nth_error v j = Some x ->
                  x = zero \/ (x = one /\ Z.of_nat j = index)) /\
     (~ (0 <= index < size)%Z -> v = repeat zero (Z.to_nat size))) /\
  (~ (0 <= size <= MAX_ARRAY_LENGTH)%Z ->
   createItemVector_call (T := T) index size = Throws RangeError).
Proof.
  rewrite createItemVector_call_spec. split.
  - intros [H0 H1].
    rewrite (proj2 (Z.leb_le 0 size) H0), (proj2 (Z.leb_le size MAX_ARRAY_LENGTH) H1).
    cbn [andb]. eexists. split; [reflexivity|].
    destruct (createItemVector_entries (T := T) index (Z.to_nat size))
      as (Hl & He & Ho & Hz).
    split; [exact Hl|]. split; [exact He|]. split; [exact Ho|].
    intros Hout. apply Hz. rewrite Z2Nat.id by exact H0. exact Hout.
  - intros Hout.
    destruct (0 <=? size)%Z eqn:E0; [|reflexivity].
    destruct (size <=? MAX_ARRAY_LENGTH)%Z eqn:E1; [|reflexivity].
    exfalso. apply Hout. split; [now apply Z.leb_le | now apply Z.leb_le].
Qed.

(** An instance of C9: size 6, and the index 7 outside [0, 6). *)
Lemma createItemVector_returns_below_limit_witness :
  (0 <= 6 <= MAX_ARRAY_LENGTH)%Z /\
  ~ (0 <= 7 < 6)%Z /\
  createItemVector_call (T := float) 7 6 = Returns (repeat zero 6).
Proof.
  assert (0 <= 6 <= MAX_ARRAY_LENGTH)%Z as Hs by (unfold MAX_ARRAY_LENGTH; lia).
  assert (~ (0 <= 7 < 6)%Z) as Hout by lia.
  split; [exact Hs|]. split; [exact Hout|].
  destruct (proj1 (createItemVector_returns_below_limit float float_Number 7 6) Hs)
    as (v & E & _ & _ & _ & Hz).
  rewrite E. f_equal. apply (Hz Hout).
Defined.

(** C9 as stated fails: 2^32 is a non-negative size, and
    createItemVector(0, 4294967296) does not return a vector:
    [new Array(4294967296)] throws a RangeError. *)
Lemma createItemVector_size_limit :
  (0 <= 4294967296)%Z /\
  createItemVector_call (T := float) 0 4294967296 = Throws RangeError /\
  ~ exists v, createItemVector_call (T := float) 0 4294967296 = Returns v.
Proof.
  assert (createItemVector_call (T := float) 0 4294967296 = Throws RangeError) as E
      by (vm_compute; reflexivity).
  split; [lia|]. split; [exact E|].
  intros [v Hv]. rewrite E in Hv. discriminate Hv.
Qed.

(** C6 (as amended).  For every index in [0, N) the item-vector constructor
    returns the one-hot vector of dimension N with value 1 at that index and
    0 elsewhere; for every index not in [0, N) it does not fail: it returns
    the all-zero vector of dimension N. *)
Theorem createItemVector_one_hot
        (T : Type) (N : Number T) (index : Z) (size : nat) :
  ((0 <= index < Z.of_nat size)%Z ->
   createItemVector (T := T) index size =
   repeat zero (Z.to_nat index) ++ one :: repeat zero (size - 1 - Z.to_nat index)) /\
  (~ (0 <= index < Z.of_nat size)%Z ->
   createItemVector (T := T) index size = repeat zero size).
Proof.
  split; [|apply createItemVector_outside].
  intros Hin. apply nth_error_ext. intros j.
  rewrite nth_error_createItemVector.
  destruct (Nat.ltb j size) eqn:Ej.
  - apply Nat.ltb_lt in Ej.
    destruct (Z.of_nat j =? index)%Z eqn:E.
    + apply Z.eqb_eq in E.
      replace j with (length (repeat (zero (T := T)) (Z.to_nat index)) + 0)
        by (rewrite repeat_length; lia).
      now rewrite nth_error_app2, repeat_length, Nat.add_comm, Nat.add_sub by
          (rewrite repeat_length; lia).
    + apply Z.eqb_neq in E.
      destruct (Nat.lt_ge_cases j (Z.to_nat index)) as [Hlt|Hge].
      * rewrite nth_error_app1 by (now rewrite repeat_length).
        rewrite nth_error_repeat_lt. apply Nat.ltb_lt in Hlt. now rewrite Hlt.
      * rewrite nth_error_app2 by (now rewrite repeat_length).
        rewrite repeat_length.
        destruct (j - Z.to_nat index) as [|d] eqn:Ed; [lia|].
        simpl. rewrite nth_error_repeat_lt.
        replace (Nat.ltb d (size - 1 - Z.to_nat index)) with true; [reflexivity|].
        symmetry. apply Nat.ltb_lt. lia.
  - apply Nat.ltb_ge in Ej. symmetry. apply nth_error_None.
    rewrite length_app. simpl. rewrite !repeat_length. lia.
Qed.

(** An instance of the amended C6: the index 2 is in [0, 6). *)
Lemma createItemVector_one_hot_witness :
  (0 <= 2 < Z.of_nat 6)%Z /\
  createItemVector (T := float) 2 6 =
  repeat zero (Z.to_nat 2) ++ one :: repeat zero (6 - 1 - Z.to_nat 2).
Proof.
  assert (0 <= 2 < Z.of_nat 6)%Z as Hin by (simpl; lia).
  split; [exact Hin|].
  exact (proj1 (createItemVector_one_hot float float_Number 2 6) Hin).
Defined.

(** C6 as stated fails: the index 6 = N (and the index -1) is not in [0, N),
    and the constructor returns the all-zero vector there. *)
Lemma createItemVector_out_of_range_returns :
  ~ (0 <= 6 < Z.of_nat VECTOR_SIZE)%Z /\
  createItemVector (T := float) 6 VECTOR_SIZE = [0; 0; 0; 0; 0; 0]%float /\
  ~ (0 <= -1 < Z.of_nat VECTOR_SIZE)%Z /\
  createItemVector (T := float) (-1) VECTOR_SIZE = [0; 0; 0; 0; 0; 0]%float.
Proof.
  repeat split; try (vm_compute; reflexivity); unfold VECTOR_SIZE; lia.
Qed.

(** ** Activations *)

Section ActivationFacts.
Context {T : Type} `{Number T}.

(** [dot] is the sum of the products of the elements at equal positions,
    accumulated from the left, starting from zero. *)
Lemma reduce_from_combine (v1 : list T) :
  forall (pre v2 : list T) (acc : T),
    length v1 <= length v2 ->
    reduce_from (fun sum val i => (sum + mul_undef val (nth_error (pre ++ v2) i))%num)
                (length pre) v1 acc =
    fold_left (fun sum p => (sum + fst p * snd p)%num) (combine v1 v2) acc.
Proof.
  induction v1 as [|x v1 IH]; intros pre [|y v2] acc Hl; simpl in *;
    try reflexivity; try lia.
  rewrite nth_error_app2, Nat.sub_diag by lia. simpl.
  replace (pre ++ y :: v2) with ((pre ++ [y]) ++ v2) by (now rewrite <- app_assoc).
  replace (S (length pre)) with (length (pre ++ [y]))
    by (rewrite length_app; simpl; lia).
  apply IH. lia.
Qed.

Lemma dot_sum_of_products (v1 v2 : list T) :
  length v1 <= length v2 ->
  dot v1 v2 = fold_left (fun sum p => (sum + fst p * snd p)%num) (combine v1 v2) zero.
Proof. intros Hl. exact (reduce_from_combine v1 [] v2 zero Hl). Qed.

End ActivationFacts.

(** C2. For every probe vector and every encoding history, the activation
    profile has exactly one entry per history record, in the order of the
    history, with activation[i] equal to the unnormalized dot product of the
    probe and history[i]'s stored snapshot (the left-to-right sum of the
    products of their components, divided by nothing); the record that is
    the current probe source is included, with its activation with itself
    and marked as the target.  The similarities of the recency slide are
    built the same way from the end-of-list context. *)
Theorem activation_profile
        (T : Type) (N : Number T)
        (probe : list T) (encodingHistory : list (RetrievalContiguity.entry (T := T)))
        (recalledIndex : option nat) :
  let profile := RetrievalContiguity.activate probe encodingHistory recalledIndex in
  length profile = length encodingHistory /\
  (forall i e,
      nth_error encodingHistory i = Some e ->
      nth_error profile i =
      Some {| RetrievalContiguity.name := RetrievalContiguity.item e;
              RetrievalContiguity.activation := dot probe (RetrievalContiguity.context e);
              RetrievalContiguity.isTarget :=
                match recalledIndex with
                | Some k => Nat.eqb i k
                | None => false
                end |}) /\
  (forall e,
      length probe <= length (RetrievalContiguity.context e) ->
      dot probe (RetrievalContiguity.context e) =
      fold_left (fun sum p => (sum + fst p * snd p)%num)
                (combine probe (RetrievalContiguity.context e)) zero) /\
  (forall k e,
      nth_error encodingHistory k = Some e ->
      RetrievalContiguity.activations encodingHistory (Some k) =
      Returns (RetrievalContiguity.activate (RetrievalContiguity.context e)
                                            encodingHistory (Some k)) /\
      nth_error (RetrievalContiguity.activate (RetrievalContiguity.context e)
                                              encodingHistory (Some k)) k =
      Some {| RetrievalContiguity.name := RetrievalContiguity.item e;
              RetrievalContiguity.activation :=
                dot (RetrievalContiguity.context e) (RetrievalContiguity.context e);
              RetrievalContiguity.isTarget := true |}) /\
  (forall e,
      nth_error encodingHistory (RetrievalContiguity.listLength - 1) = Some e ->
      RetrievalContiguity.activations encodingHistory None =
      Returns (RetrievalContiguity.activate (RetrievalContiguity.context e)
                                            encodingHistory None)) /\
  (length (RetrievalRecency.similarities (T := T)) =
   length (RetrievalRecency.states (T := T)) /\
   forall i st,
     nth_error RetrievalRecency.states i = Some st ->
     nth_error RetrievalRecency.similarities i =
     Some {| RetrievalRecency.name := RetrievalRecency.item st;
             RetrievalRecency.similarity :=
               dot RetrievalRecency.endOfListContext
                   (RetrievalRecency.contextAtEncoding st);
             RetrievalRecency.index := i |}).
Proof.
  cbv zeta. unfold RetrievalContiguity.activate.
  split; [apply map_from_length|].
  split; [|split; [|split; [|split]]].
  - intros i e Hi. now rewrite nth_error_map_from, Hi.
  - intros e. apply dot_sum_of_products.
  - intros k e Hk. split.
    + unfold RetrievalContiguity.activations, RetrievalContiguity.currentProbeContext.
      now rewrite Hk.
    + rewrite nth_error_map_from, Hk. simpl. now rewrite Nat.eqb_refl.
  - intros e He.
    unfold RetrievalContiguity.activations, RetrievalContiguity.currentProbeContext.
    now rewrite He.
  - unfold RetrievalRecency.similarities. split; [apply map_from_length|].
    intros i st Hi. now rewrite nth_error_map_from, Hi.
Qed.

(** An instance of C2 in binary64: the history of the contiguity slide and
    the recalled index 2, whose own bar is in the profile. *)
Lemma activation_profile_witness :
  exists e,
    nth_error (RetrievalContiguity.encodingHistory (T := float)) 2 = Some e /\
    RetrievalContiguity.activations RetrievalContiguity.encodingHistory (Some 2) =
    Returns (RetrievalContiguity.activate (RetrievalContiguity.context e)
               RetrievalContiguity.encodingHistory (Some 2)) /\
    nth_error (RetrievalContiguity.activate (RetrievalContiguity.context e)
                 RetrievalContiguity.encodingHistory (Some 2)) 2 =
    Some {| RetrievalContiguity.name := RetrievalContiguity.item e;
            RetrievalContiguity.activation :=
              dot (RetrievalContiguity.context e) (RetrievalContiguity.context e);
            RetrievalContiguity.isTarget := true |}.
Proof.
  eexists. split; [reflexivity|].
  apply (proj1 (proj2 (proj2 (proj2
           (activation_profile float float_Number []
              RetrievalContiguity.encodingHistory None)))) 2).
  reflexivity.
Defined.

(** C3. In the run that starts from the zero 6-vector with rho = 0.6 and
    beta = 0.8 and presents items 0 through 5 once each in order, the
    end-of-list activation profile (probe = the final context) is
    non-increasing as distance from the last item increases: activation of
    item 5 >= item 4 >= item 3 >= item 2 >= item 1 >= item 0, with each
    activation equal to its computed dot-product value, in binary64 (the
    numbers the slide charts) and in exact arithmetic. *)
Theorem recency_profile :
  (let profile :=
     map RetrievalRecency.similarity (RetrievalRecency.similarities (T := float)) in
   profile = [0.049766399999999988; 0.11280383999999999; 0.205922304;
              0.35395338239999996; 0.5963720294399999; 0.99782321766400006]%float /\
   ascending PrimFloat.leb profile = true) /\
  (let profile :=
     map RetrievalRecency.similarity (RetrievalRecency.similarities (T := rat)) in
   profile = map num_lit [0.0497664; 0.11280384; 0.205922304;
                          0.3539533824; 0.59637202944; 0.997823217664]%Q /\
   ascending rat_leb profile = true) /\
  (RetrievalRecency.endOfListContext (T := float) =
     [0.062207999999999986; 0.10367999999999998; 0.17279999999999998;
      0.28799999999999998; 0.47999999999999998; 0.80000000000000004]%float /\
   RetrievalRecency.endOfListContext (T := rat) =
     map num_lit [0.062208; 0.10368; 0.1728; 0.288; 0.48; 0.8]%Q).
Proof.
  cbv zeta. repeat split; try (vm_compute; reflexivity);
    apply rats_eqb_eq; vm_compute; reflexivity.
Qed.

(** C4. In the same 6-item run with rho = 0.6 and beta = 0.8 (the history
    the contiguity loop builds from the constants of the recency slide holds
    the same snapshots), with the probe set to the snapshot stored at
    position 2 (recalledIndex = 2), the activation at position 1 and the
    activation at position 3 each strictly exceed the average of the
    activations at positions 0 and 5, in binary64 and in exact arithmetic;
    so they do for the constants the contiguity slide itself runs with,
    rho = 0.75 and beta = 0.6. *)
Theorem contiguity_neighbours :
  (forall (T : Type) (N : Number T),
      map RetrievalContiguity.context
          (RetrievalContiguity.encode (T := T) RetrievalRecency.rho
             RetrievalRecency.beta RetrievalRecency.listLength) =
      map RetrievalRecency.contextAtEncoding RetrievalRecency.states) /\
  (exists bars,
      RetrievalContiguity.activations
        (RetrievalContiguity.encode (T := float) RetrievalRecency.rho
           RetrievalRecency.beta RetrievalRecency.listLength)
        (Some 2) = Returns bars /\
      let a := map RetrievalContiguity.activation bars in
      a = [0.23039999999999999; 0.52224000000000004; 0.95334400000000008;
           0.57200640000000003; 0.34320383999999998; 0.205922304]%float /\
      ((nth 0 a nan + nth 5 a nan) / 2 <? nth 1 a nan)%float = true /\
      ((nth 0 a nan + nth 5 a nan) / 2 <? nth 3 a nan)%float = true) /\
  (exists bars,
      RetrievalContiguity.activations
        (RetrievalContiguity.encode (T := rat) RetrievalRecency.rho
           RetrievalRecency.beta RetrievalRecency.listLength)
        (Some 2) = Returns bars /\
      let a := map RetrievalContiguity.activation bars in
      a = map num_lit [0.2304; 0.52224; 0.953344;
                       0.5720064; 0.34320384; 0.205922304]%Q /\
      rat_ltb (rat_half (nth 0 a None + nth 5 a None)%num) (nth 1 a None) = true /\
      rat_ltb (rat_half (nth 0 a None + nth 5 a None)%num) (nth 3 a None) = true) /\
  (exists bars,
      RetrievalContiguity.activations
        (RetrievalContiguity.encodingHistory (T := float)) (Some 2) = Returns bars /\
      let a := map RetrievalContiguity.activation bars in
      a = [0.20249999999999999; 0.42187499999999994; 0.67640624999999988;
           0.50730468749999991; 0.38047851562499996; 0.28535888671874998]%float /\
      ((nth 0 a nan + nth 5 a nan) / 2 <? nth 1 a nan)%float = true /\
      ((nth 0 a nan + nth 5 a nan) / 2 <? nth 3 a nan)%float = true) /\
  (exists bars,
      RetrievalContiguity.activations
        (RetrievalContiguity.encodingHistory (T := rat)) (Some 2) = Returns bars /\
      let a := map RetrievalContiguity.activation bars in
      a = map num_lit [0.2025; 0.421875; 0.67640625;
                       0.5073046875; 0.380478515625; 0.28535888671875]%Q /\
      rat_ltb (rat_half (nth 0 a None + nth 5 a None)%num) (nth 1 a None) = true /\
      rat_ltb (rat_half (nth 0 a None + nth 5 a None)%num) (nth 3 a None) = true).
Proof.
  split; [|split; [|split; [|split]]].
  - intros T N. apply contiguity_encode_contexts.
  - eexists. split; [reflexivity|]. cbv zeta. repeat split; vm_compute; reflexivity.
  - eexists. split; [reflexivity|]. cbv zeta. split; [|split].
    + apply rats_eqb_eq. vm_compute. reflexivity.
    + vm_compute. reflexivity.
    + vm_compute. reflexivity.
  - eexists. split; [reflexivity|]. cbv zeta. repeat split; vm_compute; reflexivity.
  - eexists. split; [reflexivity|]. cbv zeta. split; [|split].
    + apply rats_eqb_eq. vm_compute. reflexivity.
    + vm_compute. reflexivity.
    + vm_compute. reflexivity.
Qed.

(** ** The drift in closed form *)

Section ClosedForm.
Context {T : Type} `{ExactArithmetic T}.

Lemma power_shift (beta rho : T) (n : nat) :
  ((beta * power rho n) * rho)%num = (beta * power rho (S n))%num.
Proof.
  simpl. rewrite <- mul_assoc. f_equal. apply mul_comm.
Qed.

(** The components of the context after [k] turns of the loop. *)
Lemma encode_components (rho beta : T) :
  rho <> num_nan -> beta <> num_nan ->
  forall k j,
    nth_error (snd (RetrievalRecency.encode rho beta k)) j =
    if Nat.ltb j VECTOR_SIZE
    then Some (if Nat.ltb j k then (beta * power rho (k - 1 - j))%num else zero)
    else None.
Proof.
  intros Hr Hb. induction k as [|k IH]; intros j.
  - change (snd (RetrievalRecency.encode rho beta 0))
      with (repeat (zero (T := T)) VECTOR_SIZE).
    rewrite nth_error_repeat_lt. now destruct (Nat.ltb j VECTOR_SIZE).
  - rewrite encode_context_S, nth_error_update, IH, nth_error_createItemVector.
    destruct (Nat.ltb j VECTOR_SIZE); [|reflexivity].
    cbn [option_map add_undef]. f_equal.
    destruct (Nat.ltb j k) eqn:Ejk.
    + apply Nat.ltb_lt in Ejk.
      replace (Nat.ltb j (S k)) with true by (symmetry; apply Nat.ltb_lt; lia).
      replace (Z.of_nat j =? Z.of_nat k)%Z with false
        by (symmetry; apply Z.eqb_neq; lia).
      rewrite (mul_zero_l beta Hb), add_zero_r, power_shift.
      f_equal. f_equal. lia.
    + apply Nat.ltb_ge in Ejk.
      destruct (Z.of_nat j =? Z.of_nat k)%Z eqn:E.
      * apply Z.eqb_eq in E.
        replace (Nat.ltb j (S k)) with true by (symmetry; apply Nat.ltb_lt; lia).
        replace (S k - 1 - j) with 0 by lia.
        rewrite (mul_zero_l rho Hr), mul_one_l, add_zero_l.
        simpl. now rewrite mul_comm, mul_one_l.
      * apply Z.eqb_neq in E.
        replace (Nat.ltb j (S k)) with false by (symmetry; apply Nat.ltb_ge; lia).
        now rewrite (mul_zero_l rho Hr), (mul_zero_l beta Hb), add_zero_l.
Qed.

End ClosedForm.

(** ** The drift in binary64

    In binary64 every product is rounded: a component is the product of beta
    and rho taken from the left, one factor after the other, which is not
    always the product of beta and a power of rho computed apart. *)

Lemma floats_eqb_eq (v w : list float) : floats_eqb v w = true -> v = w.
Proof.
  revert w; induction v as [|x v IH]; intros [|y w]; simpl; intros E;
    try discriminate; [reflexivity|].
  apply andb_prop in E. destruct E as [E1 E2].
  f_equal; [now apply FloatAxioms.Leibniz.eqb_spec | now apply IH].
Qed.

(** For every setting of the two sliders and every [1 <= k <= 6]. *)
Lemma drift_left_products_binary64 (rho beta : float) (k : nat) :
  In rho DriftSimulator.slider_values -> In beta DriftSimulator.slider_values ->
  1 <= k <= 6 ->
  snd (RetrievalRecency.encode rho beta k) =
  map (fun j => if Nat.ltb j k then times_n beta rho (k - 1 - j) else zero)
      (seq 0 VECTOR_SIZE).
Proof.
  intros Hr Hb Hk. apply floats_eqb_eq.
  assert (forallb (fun rho =>
            forallb (fun beta =>
              forallb (fun k =>
                floats_eqb
                  (snd (RetrievalRecency.encode rho beta k))
                  (map (fun j => if Nat.ltb j k
                                 then times_n beta rho (k - 1 - j) else zero)
                       (seq 0 VECTOR_SIZE)))
                (seq 1 6))
              DriftSimulator.slider_values)
            DriftSimulator.slider_values = true) as G
      by (vm_compute; reflexivity).
  rewrite forallb_forall in G. specialize (G rho Hr).
  rewrite forallb_forall in G. specialize (G beta Hb).
  rewrite forallb_forall in G. apply G. apply in_seq. lia.
Qed.

(** The same with the constants of the contiguity slide, 0.75 and 0.6. *)
Lemma drift_left_products_contiguity (k : nat) :
  1 <= k <= 6 ->
  snd (RetrievalRecency.encode (T := float)
         RetrievalContiguity.rho RetrievalContiguity.beta k) =
  map (fun j => if Nat.ltb j k
                then times_n RetrievalContiguity.beta RetrievalContiguity.rho (k - 1 - j)
                else zero)
      (seq 0 VECTOR_SIZE).
Proof.
  intros Hk. apply floats_eqb_eq.
  assert (forallb (fun k =>
            floats_eqb
              (snd (RetrievalRecency.encode (T := float)
                      RetrievalContiguity.rho RetrievalContiguity.beta k))
              (map (fun j => if Nat.ltb j k
                             then times_n RetrievalContiguity.beta
                                          RetrievalContiguity.rho (k - 1 - j)
                             else zero)
                   (seq 0 VECTOR_SIZE)))
            (seq 1 6) = true) as G
      by (vm_compute; reflexivity).
  rewrite forallb_forall in G. apply G. apply in_seq. lia.
Qed.

Lemma nth_error_seq_lt (n : nat) :
  forall s j, j < n -> nth_error (seq s n) j = Some (s + j).
Proof.
  induction n as [|n IH]; intros s [|j] Hj; simpl; try lia.
  - now rewrite Nat.add_0_r.
  - rewrite IH by lia. f_equal. lia.
Qed.

(** C10 as stated fails in binary64: with the rho = 0.6 and beta = 0.8 of the
    recency slide, after four items (k = 4) component 0 is
    0.17279999999999998, the product taken from the left; beta * rho^3 is
    0.17280000000000001, with rho^3 multiplied from the right or from the
    left, and so is the binary64 number nearest to the exact value 0.1728 of
    the formula. *)
Lemma drift_power_rounds_binary64 :
  let rho : float := RetrievalRecency.rho in
  let beta : float := RetrievalRecency.beta in
  let ctx := snd (RetrievalRecency.encode rho beta 4) in
  nth_error ctx 0 = Some 0.17279999999999998%float /\
  times_n beta rho 3 = 0.17279999999999998%float /\
  (beta * power rho 3)%num = 0.17280000000000001%float /\
  (beta * ((rho * rho) * rho))%float = 0.17280000000000001%float /\
  num_lit 0.1728 = 0.17280000000000001%float /\
  rat_eqb (num_lit 0.8 * power (num_lit 0.6) 3)%num (num_lit 0.1728) = true /\
  nth_error ctx 0 <> Some (beta * power rho 3)%num.
Proof.
  cbv zeta. repeat split; try (vm_compute; reflexivity).
  intros E.
  pose proof (f_equal (fun o => match o with
                                | Some x => PrimFloat.Leibniz.eqb x 0.17279999999999998%float
                                | None => false
                                end) E) as C.
  vm_compute in C. discriminate C.
Qed.

(** C10 (as amended).  Starting from the zero context of dimension 6 and
    presenting the distinct one-hot items 0, 1, ..., k-1 once each in order
    (for any 1 <= k <= 6), the resulting context has component j equal to 0
    for every j >= k and the most recent item's component equal to beta
    exactly.  In exact arithmetic (any rho and beta that are numbers, not
    NaN) component j is beta * rho^(k-1-j) for every j < k.  In binary64,
    for every setting of the sliders and for the constants of the
    contiguity slide, component j is beta multiplied by rho k-1-j times
    from the left, factor after factor, each product rounded.  On every
    carrier the context is that of the k-th state of the loop and that of
    the simulator after k presentations. *)
Theorem drift_closed_form :
  (forall (T : Type) (N : Number T) (E : ExactArithmetic T) (rho beta : T) (k : nat),
      rho <> num_nan -> beta <> num_nan -> 1 <= k <= 6 ->
      let ctx := snd (RetrievalRecency.encode rho beta k) in
      length ctx = 6 /\
      (forall j, j < k ->
                 nth_error ctx j = Some (beta * power rho (k - 1 - j))%num) /\
      (forall j, k <= j < 6 -> nth_error ctx j = Some zero) /\
      nth_error ctx (k - 1) = Some beta) /\
  (forall (rho beta : float) (k : nat),
      In rho DriftSimulator.slider_values -> In beta DriftSimulator.slider_values ->
      1 <= k <= 6 ->
      let ctx := snd (RetrievalRecency.encode rho beta k) in
      length ctx = 6 /\
      (forall j, j < k -> nth_error ctx j = Some (times_n beta rho (k - 1 - j))) /\
      (forall j, k <= j < 6 -> nth_error ctx j = Some zero) /\
      nth_error ctx (k - 1) = Some beta) /\
  (forall k : nat,
      1 <= k <= 6 ->
      let rho : float := RetrievalContiguity.rho in
      let beta : float := RetrievalContiguity.beta in
      let ctx := snd (RetrievalRecency.encode rho beta k) in
      length ctx = 6 /\
      (forall j, j < k -> nth_error ctx j = Some (times_n beta rho (k - 1 - j))) /\
      (forall j, k <= j < 6 -> nth_error ctx j = Some zero) /\
      nth_error ctx (k - 1) = Some beta) /\
  (forall (T : Type) (N : Number T) (rho beta : T) (k : nat),
      1 <= k <= 6 ->
      let ctx := snd (RetrievalRecency.encode rho beta k) in
      option_map RetrievalRecency.contextAtEncoding
                 (nth_error (fst (RetrievalRecency.encode rho beta k)) (k - 1)) =
      Some ctx /\
      DriftSimulator.currentContext
        (DriftSimulator.run
           (DriftSimulator.ChangeRho rho :: DriftSimulator.ChangeBeta beta ::
            repeat DriftSimulator.PresentItem k)) = ctx).
Proof.
  split; [|split; [|split]].
  - intros T N E rho beta k Hr Hb Hk. cbv zeta.
    pose proof (encode_components rho beta Hr Hb k) as C.
    split; [apply encode_context_length|]. split; [|split].
    + intros j Hj. rewrite C.
      replace (Nat.ltb j VECTOR_SIZE) with true
        by (symmetry; apply Nat.ltb_lt; unfold VECTOR_SIZE; lia).
      replace (Nat.ltb j k) with true by (symmetry; now apply Nat.ltb_lt).
      reflexivity.
    + intros j Hj. rewrite C.
      replace (Nat.ltb j VECTOR_SIZE) with true
        by (symmetry; apply Nat.ltb_lt; unfold VECTOR_SIZE; lia).
      replace (Nat.ltb j k) with false by (symmetry; apply Nat.ltb_ge; lia).
      reflexivity.
    + rewrite C.
      replace (Nat.ltb (k - 1) VECTOR_SIZE) with true
        by (symmetry; apply Nat.ltb_lt; unfold VECTOR_SIZE; lia).
      replace (Nat.ltb (k - 1) k) with true by (symmetry; apply Nat.ltb_lt; lia).
      replace (k - 1 - (k - 1)) with 0 by lia.
      simpl. now rewrite mul_comm, mul_one_l.
  - intros rho beta k Hr Hb Hk. cbv zeta.
    split; [apply encode_context_length|].
    rewrite (drift_left_products_binary64 rho beta k Hr Hb Hk).
    split; [|split].
    + intros j Hj. rewrite nth_error_map, nth_error_seq_lt by (unfold VECTOR_SIZE; lia).
      simpl. now replace (Nat.ltb j k) with true by (symmetry; now apply Nat.ltb_lt).
    + intros j Hj. rewrite nth_error_map, nth_error_seq_lt by (unfold VECTOR_SIZE; lia).
      simpl. now replace (Nat.ltb j k) with false by (symmetry; apply Nat.ltb_ge; lia).
    + rewrite nth_error_map, nth_error_seq_lt by (unfold VECTOR_SIZE; lia).
      simpl. replace (Nat.ltb (k - 1) k) with true by (symmetry; apply Nat.ltb_lt; lia).
      now replace (k - 1 - (k - 1)) with 0 by lia.
  - intros k Hk. cbv zeta.
    split; [apply encode_context_length|].
    rewrite (drift_left_products_contiguity k Hk).
    split; [|split].
    + intros j Hj. rewrite nth_error_map, nth_error_seq_lt by (unfold VECTOR_SIZE; lia).
      simpl. now replace (Nat.ltb j k) with true by (symmetry; now apply Nat.ltb_lt).
    + intros j Hj. rewrite nth_error_map, nth_error_seq_lt by (unfold VECTOR_SIZE; lia).
      simpl. now replace (Nat.ltb j k) with false by (symmetry; apply Nat.ltb_ge; lia).
    + rewrite nth_error_map, nth_error_seq_lt by (unfold VECTOR_SIZE; lia).
      simpl. replace (Nat.ltb (k - 1) k) with true by (symmetry; apply Nat.ltb_lt; lia).
      now replace (k - 1 - (k - 1)) with 0 by lia.
  - intros T N rho beta k Hk. cbv zeta. split.
    + apply encode_last_state. lia.
    + apply (drift_run_is_loop rho beta k). lia.
Qed.

(** An instance of C10 in exact arithmetic: rho = 0.6, beta = 0.8, three
    items. *)
Lemma drift_closed_form_witness :
  let rho : rat := num_lit 0.6 in
  let beta : rat := num_lit 0.8 in
  (rho <> num_nan /\ beta <> num_nan /\ 1 <= 3 <= 6) /\
  let ctx := snd (RetrievalRecency.encode rho beta 3) in
  length ctx = 6 /\
  (forall j, j < 3 -> nth_error ctx j = Some (beta * power rho (3 - 1 - j))%num) /\
  (forall j, 3 <= j < 6 -> nth_error ctx j = Some zero) /\
  nth_error ctx (3 - 1) = Some beta.
Proof.
  cbv zeta. split.
  - repeat split; try discriminate; lia.
  - apply (proj1 drift_closed_form
             rat rat_Number rat_exact (num_lit 0.6) (num_lit 0.8) 3).
    + discriminate.
    + discriminate.
    + lia.
Defined.

(* ================================================================== *)
(** * More of the file *)

(** ** Every state the simulator reaches *)

Section DriftReach.
Context {T : Type} `{Number T}.
Import DriftSimulator.

(** A property of the first render that every event keeps holds after every
    sequence of events. *)
Lemma run_induction (P : state * store T -> Prop) :
  P (run []) ->
  (forall es e, P (run es) -> P (run (es ++ [e]))) ->
  forall es, P (run es).
Proof.
  intros H0 Hstep es. induction es as [|e es IH] using rev_ind;
    [exact H0 | now apply Hstep].
Qed.

Lemma reset_run (es : list event) :
  let s := run es in
  let s' := run (es ++ [ClickReset]) in
  currentContext s' = repeat zero 6 /\
  history (fst s') = [] /\
  step (fst s') = 0 /\
  rho (fst s') = rho (fst s) /\
  beta (fst s') = beta (fst s).
Proof.
  cbv zeta. rewrite run_app. destruct (run es) as [st h].
  cbn [handle_all handle fst snd]. unfold bind. rewrite reset_spec.
  unfold currentContext. cbn [ret fst snd context history step rho beta].
  rewrite (deref_at h [] _ (length h) eq_refl). repeat split.
Qed.

Lemma change_run (es : list event) (e : event) :
  e <> PresentItem -> e <> ClickReset ->
  let s := run es in
  let s' := run (es ++ [e]) in
  snd s' = snd s /\
  context (fst s') = context (fst s) /\
  history (fst s') = history (fst s) /\
  step (fst s') = step (fst s) /\
  rho (fst s') = match e with ChangeRho v => v | _ => rho (fst s) end /\
  beta (fst s') = match e with ChangeBeta v => v | _ => beta (fst s) end.
Proof.
  intros Hp Hr. cbv zeta. rewrite run_app. destruct (run es) as [st h].
  destruct e; try congruence; simpl; repeat split.
Qed.

(** One more event leaves the arrays of the entries of the history as they
    are. *)
Lemma snapshot_step (es : list event) (e : event) (x : History.entry) :
  In x (history (fst (run es))) ->
  snapshot (run (es ++ [e])) x = snapshot (run es) x.
Proof.
  intros Hx. rewrite run_app.
  pose proof (run_valid es) as Hv.
  destruct (run es) as [st h]. cbn [fst snd] in *.
  destruct (handle_all_extends [e] st h Hv) as [h' E].
  unfold snapshot. cbn [snd]. rewrite E. apply deref_old.
  destruct Hv as [_ Hh]. cbn [fst snd] in Hh.
  rewrite Forall_forall in Hh. now apply Hh.
Qed.

Lemma press_snapshot (es : list event) :
  let s' := run (es ++ [PresentItem]) in
  snapshot s' {| History.item := currentItemName (fst (run es));
                 History.context := context (fst s') |} = currentContext s'.
Proof. reflexivity. Qed.

End DriftReach.

(** X1. In every state the simulator reaches, the current context and the
    snapshot of every entry of the history have dimension [VECTOR_SIZE]. *)
Theorem drift_dimension (T : Type) (N : Number T)
        (es : list (DriftSimulator.event (T := T))) :
  length (DriftSimulator.currentContext (DriftSimulator.run es)) = VECTOR_SIZE /\
  Forall (fun e => length (DriftSimulator.snapshot (DriftSimulator.run es) e) = VECTOR_SIZE)
         (DriftSimulator.history (fst (DriftSimulator.run es))).
Proof.
  pattern (DriftSimulator.run es). revert es. apply run_induction; cbv beta.
  - split; [reflexivity | constructor].
  - intros es e [IHc IHh]. destruct e.
    + destruct (press_spec es) as (Pc & _ & _ & _ & Ph). split.
      * rewrite Pc, add_length, scale_length. exact IHc.
      * rewrite Ph. apply Forall_app. split.
        -- rewrite Forall_forall in IHh |- *. intros x Hx.
           rewrite snapshot_step by exact Hx. now apply IHh.
        -- constructor; [|constructor]. rewrite press_snapshot.
           rewrite Pc, add_length, scale_length. exact IHc.
    + destruct (reset_run es) as (Rc & Rh & _). split.
      * rewrite Rc. apply repeat_length.
      * rewrite Rh. constructor.
    + destruct (change_run es (DriftSimulator.ChangeRho v)) as (Cs & Cc & Ch & _);
        try discriminate.
      unfold DriftSimulator.currentContext, DriftSimulator.snapshot in *.
      rewrite Cs, Cc, Ch. split; assumption.
    + destruct (change_run es (DriftSimulator.ChangeBeta v)) as (Cs & Cc & Ch & _);
        try discriminate.
      unfold DriftSimulator.currentContext, DriftSimulator.snapshot in *.
      rewrite Cs, Cc, Ch. split; assumption.
Qed.

(** X2. In every state the simulator reaches, [step] is the number of
    entries of the history, and the entry at position i carries the item
    [ITEMS[i mod 6]], a name that is defined: the history is gapless and the
    items cycle through the list. *)
Theorem drift_history_positions (T : Type) (N : Number T)
        (es : list (DriftSimulator.event (T := T))) :
  let st := fst (DriftSimulator.run es) in
  DriftSimulator.step st = length (DriftSimulator.history st) /\
  forall i e,
    nth_error (DriftSimulator.history st) i = Some e ->
    History.item e = nth_error ITEMS (i mod length ITEMS) /\
    exists name, History.item e = Some name /\ In name ITEMS.
Proof.
  cbv zeta. pattern (DriftSimulator.run es). revert es. apply run_induction; cbv beta.
  - split; [reflexivity|]. intros [|i] e; discriminate.
  - intros es e [IHs IHh]. destruct e.
    + destruct (press_spec es) as (_ & _ & _ & Ps & Ph).
      rewrite Ps, Ph, length_app. split; [simpl; lia|].
      intros i x Hi.
      destruct (Nat.lt_ge_cases i (length (DriftSimulator.history
                                             (fst (DriftSimulator.run es))))) as [Hlt|Hge].
      * rewrite nth_error_app1 in Hi by exact Hlt. now apply IHh.
      * rewrite nth_error_app2 in Hi by exact Hge.
        destruct (i - length (DriftSimulator.history (fst (DriftSimulator.run es))))
          as [|d] eqn:Ed; [|destruct d; discriminate].
        injection Hi as <-. cbn [History.item].
        unfold DriftSimulator.currentItemName. rewrite IHs.
        replace i with (length (DriftSimulator.history (fst (DriftSimulator.run es))))
          by lia.
        split; [reflexivity|].
        destruct (nth_error ITEMS
                    (length (DriftSimulator.history (fst (DriftSimulator.run es)))
                     mod length ITEMS)) as [name|] eqn:En.
        -- exists name. split; [reflexivity|]. eapply nth_error_In. exact En.
        -- apply nth_error_None in En.
           pose proof (Nat.mod_upper_bound
                         (length (DriftSimulator.history (fst (DriftSimulator.run es))))
                         (length ITEMS)) as Hb.
           simpl in Hb, En. lia.
    + destruct (reset_run es) as (_ & Rh & Rs & _). rewrite Rh, Rs.
      split; [reflexivity|]. intros [|i] x; discriminate.
    + destruct (change_run es (DriftSimulator.ChangeRho v)) as (_ & _ & Ch & Cs & _);
        try discriminate.
      rewrite Ch, Cs. split; assumption.
    + destruct (change_run es (DriftSimulator.ChangeBeta v)) as (_ & _ & Ch & Cs & _);
        try discriminate.
      rewrite Ch, Cs. split; assumption.
Qed.

(** X3. In every state the simulator reaches, the context is the array of
    the last entry of the history (the same reference, hence the same
    vector), and the zero vector when the history is empty. *)
Theorem drift_context_is_last_snapshot (T : Type) (N : Number T)
        (es : list (DriftSimulator.event (T := T))) :
  let s := DriftSimulator.run es in
  (DriftSimulator.history (fst s) = [] ->
   DriftSimulator.currentContext s = repeat zero VECTOR_SIZE) /\
  (forall e,
      nth_error (DriftSimulator.history (fst s))
                (length (DriftSimulator.history (fst s)) - 1) = Some e ->
      History.context e = DriftSimulator.context (fst s) /\
      DriftSimulator.snapshot s e = DriftSimulator.currentContext s).
Proof.
  cbv zeta. pattern (DriftSimulator.run es). revert es. apply run_induction; cbv beta.
  - split; [reflexivity|]. intros e. discriminate.
  - intros es e [IH0 IHl]. destruct e.
    + destruct (press_spec es) as (_ & _ & _ & _ & Ph). rewrite Ph. split.
      * intros E. now apply app_eq_nil in E.
      * intros x. rewrite length_app. cbn [length].
        rewrite nth_error_app2 by lia.
        replace (length (DriftSimulator.history (fst (DriftSimulator.run es))) + 1 - 1 -
                 length (DriftSimulator.history (fst (DriftSimulator.run es)))) with 0 by lia.
        intros [= <-]. split; reflexivity.
    + destruct (reset_run es) as (Rc & Rh & _). rewrite Rh. split.
      * intros _. exact Rc.
      * intros x. discriminate.
    + destruct (change_run es (DriftSimulator.ChangeRho v)) as (Cs & Cc & Ch & _);
        try discriminate.
      unfold DriftSimulator.currentContext, DriftSimulator.snapshot in *.
      rewrite Cs, Cc, Ch. split; assumption.
    + destruct (change_run es (DriftSimulator.ChangeBeta v)) as (Cs & Cc & Ch & _);
        try discriminate.
      unfold DriftSimulator.currentContext, DriftSimulator.snapshot in *.
      rewrite Cs, Cc, Ch. split; assumption.
Qed.

(** ** Shared arrays and values *)

Section DriftRefinement.
Context {T : Type} `{Number T}.

Lemma values_run_app (es : list (DriftSimulator.event (T := T))) e :
  DriftValues.run (es ++ [e]) = DriftValues.handle e (DriftValues.run es).
Proof. unfold DriftValues.run. now rewrite fold_left_app. Qed.

(** What one event changes in what the component shows is what it changes
    on values. *)
Lemma observe_step (es : list (DriftSimulator.event (T := T))) e :
  DriftValues.observe (DriftSimulator.run (es ++ [e])) =
  DriftValues.handle e (DriftValues.observe (DriftSimulator.run es)).
Proof.
  destruct e.
  - destruct (press_spec es) as (Pc & Pr & Pb & Ps & Ph).
    unfold DriftValues.observe, DriftValues.handle, DriftValues.processNextItem.
    cbn [DriftValues.beta DriftValues.rho DriftValues.context DriftValues.history
         DriftValues.step].
    rewrite Pr, Pb, Ps, Pc. f_equal.
    rewrite Ph, map_app. f_equal.
    + apply map_ext_in. intros x Hx. f_equal. now apply snapshot_step.
    + cbn [map History.item History.context]. f_equal. f_equal.
      rewrite press_snapshot. exact Pc.
  - destruct (reset_run es) as (Rc & Rh & Rs & Rr & Rb).
    unfold DriftValues.observe, DriftValues.handle, DriftValues.reset.
    cbn [DriftValues.beta DriftValues.rho].
    now rewrite Rc, Rh, Rs, Rr, Rb.
  - destruct (change_run es (DriftSimulator.ChangeRho v))
      as (Cs & Cc & Ch & Cp & Cr & Cb); try discriminate.
    unfold DriftValues.observe, DriftValues.handle,
      DriftSimulator.currentContext, DriftSimulator.snapshot.
    cbn [DriftValues.beta DriftValues.rho DriftValues.context DriftValues.history
         DriftValues.step].
    now rewrite Cs, Cc, Ch, Cp, Cr, Cb.
  - destruct (change_run es (DriftSimulator.ChangeBeta v))
      as (Cs & Cc & Ch & Cp & Cr & Cb); try discriminate.
    unfold DriftValues.observe, DriftValues.handle,
      DriftSimulator.currentContext, DriftSimulator.snapshot.
    cbn [DriftValues.beta DriftValues.rho DriftValues.context DriftValues.history
         DriftValues.step].
    now rewrite Cs, Cc, Ch, Cp, Cr, Cb.
Qed.

Lemma observe_run (es : list (DriftSimulator.event (T := T))) :
  DriftValues.observe (DriftSimulator.run es) = DriftValues.run es.
Proof.
  induction es as [|e es IH] using rev_ind; [reflexivity|].
  now rewrite observe_step, values_run_app, IH.
Qed.

Lemma values_run_app_all (es later : list (DriftSimulator.event (T := T))) :
  DriftValues.run (es ++ later) =
  fold_left (fun st e => DriftValues.handle e st) later (DriftValues.run es).
Proof. unfold DriftValues.run. now rewrite fold_left_app. Qed.

End DriftRefinement.

(** X4. Sharing is not observable: after every sequence of events, what the
    simulator shows (parameters, context, the items and snapshots of the
    history, step), each reference read through the store, is the state of
    the same component computed on values, where every vector is a value of
    its own. *)
Theorem drift_shows_values (T : Type) (N : Number T)
        (es : list (DriftSimulator.event (T := T))) :
  DriftValues.observe (DriftSimulator.run es) = DriftValues.run es /\
  forall e,
    DriftValues.observe (DriftSimulator.run (es ++ [e])) =
    DriftValues.handle e (DriftValues.observe (DriftSimulator.run es)).
Proof.
  split; [apply observe_run | intros e; apply observe_step].
Qed.

(** X5. The reset button starts over: whatever happened before it, the
    events after a reset show what they show after the first render with the
    two sliders moved to the values they have at the reset. *)
Theorem drift_reset_starts_over (T : Type) (N : Number T)
        (es later : list (DriftSimulator.event (T := T))) :
  let r := DriftSimulator.rho (fst (DriftSimulator.run es)) in
  let b := DriftSimulator.beta (fst (DriftSimulator.run es)) in
  DriftValues.observe
    (DriftSimulator.run (es ++ DriftSimulator.ClickReset :: later)) =
  DriftValues.observe
    (DriftSimulator.run
       (DriftSimulator.ChangeRho r :: DriftSimulator.ChangeBeta b :: later)).
Proof.
  cbv zeta. rewrite !observe_run.
  change (DriftSimulator.ChangeRho (DriftSimulator.rho (fst (DriftSimulator.run es))) ::
          DriftSimulator.ChangeBeta (DriftSimulator.beta (fst (DriftSimulator.run es))) ::
          later)
    with ([DriftSimulator.ChangeRho (DriftSimulator.rho (fst (DriftSimulator.run es)));
           DriftSimulator.ChangeBeta (DriftSimulator.beta (fst (DriftSimulator.run es)))]
          ++ later).
  rewrite !values_run_app_all. cbn [fold_left]. f_equal.
  pose proof (observe_run es) as E.
  unfold DriftValues.handle at 1, DriftValues.reset.
  rewrite <- E. reflexivity.
Qed.

(** ** The caption *)

Lemma ITEMS_at_previous (step : nat) :
  ITEMS_at (Z.rem (Z.of_nat step - 1 + Z.of_nat (length ITEMS))
                  (Z.of_nat (length ITEMS))) =
  nth_error ITEMS ((step + 5) mod 6).
Proof.
  unfold ITEMS_at. cbn [length ITEMS].
  replace (Z.of_nat step - 1 + Z.of_nat 6)%Z with (Z.of_nat (step + 5)) by lia.
  rewrite Z.rem_mod_nonneg by lia.
  rewrite <- Nat2Z.inj_mod.
  replace (Z.of_nat ((step + 5) mod 6) <? 0)%Z with false
    by (symmetry; apply Z.ltb_ge; lia).
  now rewrite Nat2Z.id.
Qed.

Lemma ITEMS_names (k : nat) :
  k < 6 ->
  exists name, nth_error ITEMS k = Some name /\
               or_else (Some name) "None" = name /\
               name <> "None"%string /\ In name ITEMS.
Proof.
  intros Hk.
  do 6 (destruct k as [|k];
        [eexists; split; [reflexivity|]; split; [reflexivity|];
         split; [discriminate | simpl; tauto]|]).
  lia.
Qed.

(** X6. The caption under the simulator names an item of the list in every
    state the simulator reaches, never the fallback 'None': the item of the
    last entry of the history when there is one, and "Forest", the last of
    the list, before the first presentation and after a reset. *)
Theorem caption_names_an_item (T : Type) (N : Number T)
        (es : list (DriftSimulator.event (T := T))) :
  let st := fst (DriftSimulator.run es) in
  In (previousItemName st) ITEMS /\
  previousItemName st <> "None"%string /\
  (DriftSimulator.history st = [] -> previousItemName st = "Forest"%string) /\
  (forall e,
      nth_error (DriftSimulator.history st)
                (length (DriftSimulator.history st) - 1) = Some e ->
      History.item e = Some (previousItemName st)).
Proof.
  cbv zeta.
  assert (DriftSimulator.step (fst (DriftSimulator.run es)) =
          length (DriftSimulator.history (fst (DriftSimulator.run es))) /\
          forall e,
            nth_error (DriftSimulator.history (fst (DriftSimulator.run es)))
                      (length (DriftSimulator.history (fst (DriftSimulator.run es))) - 1)
            = Some e ->
            History.item e =
            nth_error ITEMS
              ((DriftSimulator.step (fst (DriftSimulator.run es)) + 5) mod 6)) as [Es El].
  { pattern (DriftSimulator.run es). revert es. apply run_induction; cbv beta.
    - split; [reflexivity|]. intros e. discriminate.
    - intros es e [IHs IHl]. destruct e.
      + destruct (press_spec es) as (_ & _ & _ & Ps & Ph). rewrite Ps, Ph, length_app.
        split; [simpl; lia|].
        intros x. cbn [length]. rewrite nth_error_app2 by lia.
        replace (length (DriftSimulator.history (fst (DriftSimulator.run es))) + 1 - 1 -
                 length (DriftSimulator.history (fst (DriftSimulator.run es)))) with 0 by lia.
        intros [= <-]. cbn [History.item]. unfold DriftSimulator.currentItemName.
        cbn [length ITEMS]. f_equal.
        replace (S (DriftSimulator.step (fst (DriftSimulator.run es))) + 5)
          with (DriftSimulator.step (fst (DriftSimulator.run es)) + 1 * 6) by lia.
        now rewrite Nat.Div0.mod_add.
      + destruct (reset_run es) as (_ & Rh & Rs & _). rewrite Rh, Rs.
        split; [reflexivity|]. intros x. discriminate.
      + destruct (change_run es (DriftSimulator.ChangeRho v)) as (_ & _ & Ch & Cs & _);
          try discriminate.
        rewrite Ch, Cs. split; assumption.
      + destruct (change_run es (DriftSimulator.ChangeBeta v)) as (_ & _ & Ch & Cs & _);
          try discriminate.
        rewrite Ch, Cs. split; assumption. }
  unfold previousItemName. rewrite ITEMS_at_previous.
  destruct (ITEMS_names ((DriftSimulator.step (fst (DriftSimulator.run es)) + 5) mod 6))
    as (name & En & Eo & Hn & Hin).
  { apply Nat.mod_upper_bound. lia. }
  rewrite En, Eo. repeat split; try assumption.
  - intros E0. rewrite Es, E0 in En. simpl in En. congruence.
  - intros e He. now rewrite (El e He).
Qed.

(** ** Vectors of equal and of different lengths *)

Section DotFacts.
Context {T : Type} `{Number T}.

Lemma fold_products_sym (comm : forall x y : T, (x * y)%num = (y * x)%num)
      (v1 : list T) :
  forall (v2 : list T) (acc : T),
    fold_left (fun sum p => (sum + fst p * snd p)%num) (combine v1 v2) acc =
    fold_left (fun sum p => (sum + fst p * snd p)%num) (combine v2 v1) acc.
Proof.
  induction v1 as [|x v1 IH]; intros [|y v2] acc; simpl; try reflexivity.
  rewrite (comm x y). apply IH.
Qed.

Lemma dot_sym (comm : forall x y : T, (x * y)%num = (y * x)%num)
      (v1 v2 : list T) :
  length v1 = length v2 -> dot v1 v2 = dot v2 v1.
Proof.
  intros E. rewrite !dot_sum_of_products by lia. now apply fold_products_sym.
Qed.

Lemma combine_firstn_r {A B : Type} (v1 : list A) :
  forall v2 : list B, combine v1 (firstn (length v1) v2) = combine v1 v2.
Proof.
  induction v1 as [|x v1 IH]; intros [|y v2]; simpl; try reflexivity.
  now rewrite IH.
Qed.

(** The entries of the history of the contiguity loop are vectors of
    dimension [VECTOR_SIZE]. *)
Lemma contiguity_context_length (rho beta : T) (n i : nat) e :
  nth_error (RetrievalContiguity.encode rho beta n) i = Some e ->
  length (RetrievalContiguity.context e) = VECTOR_SIZE.
Proof.
  intros Hi.
  assert (nth_error (map RetrievalContiguity.context
                         (RetrievalContiguity.encode rho beta n)) i =
          Some (RetrievalContiguity.context e)) as Hm
      by (now rewrite nth_error_map, Hi).
  rewrite contiguity_encode_contexts in Hm.
  clear Hi. revert i Hm. induction n as [|n IH]; intros i Hm.
  - destruct i; discriminate.
  - rewrite encode_states_S, map_app in Hm. cbn [map] in Hm.
    destruct (Nat.lt_ge_cases i (length (map RetrievalRecency.contextAtEncoding
                                             (fst (RetrievalRecency.encode rho beta n)))))
      as [Hlt|Hge].
    + rewrite nth_error_app1 in Hm by exact Hlt. now apply (IH i).
    + rewrite nth_error_app2 in Hm by exact Hge.
      destruct (i - _) as [|d]; [|destruct d; discriminate].
      injection Hm as <-. apply encode_context_length.
Qed.

End DotFacts.

(** X7. [dot] is symmetric on two vectors of one length, on every carrier
    whose multiplication commutes: in exact arithmetic and in binary64,
    where the products are the same and are added in the same order. *)
Theorem dot_symmetric (T : Type) (N : Number T) (v1 v2 : list T) :
  (forall x y : T, (x * y)%num = (y * x)%num) ->
  length v1 = length v2 ->
  dot v1 v2 = dot v2 v1.
Proof. intros comm E. now apply dot_sym. Qed.

(** An instance of X7 in binary64. *)
Lemma dot_symmetric_witness :
  (forall x y : float, (x * y)%num = (y * x)%num) /\
  length [0.48; 0.8; 0]%float = length [0.288; 0.48; 0.8]%float /\
  dot [0.48; 0.8; 0]%float [0.288; 0.48; 0.8]%float =
  dot [0.288; 0.48; 0.8]%float [0.48; 0.8; 0]%float.
Proof.
  split; [exact float_mul_comm|]. split; [reflexivity|].
  apply (dot_symmetric float float_Number); [exact float_mul_comm | reflexivity].
Defined.

(** X8. The activations of the contiguity slide are symmetric: on the
    history the loop builds (any rho, beta and length), the bar of item j
    when item i is recalled is as high as the bar of item i when item j is
    recalled, on every carrier whose multiplication commutes. *)
Theorem activation_symmetric (T : Type) (N : Number T)
        (rho beta : T) (n i j : nat)
        (bars_i bars_j : list (RetrievalContiguity.bar (T := T))) :
  (forall x y : T, (x * y)%num = (y * x)%num) ->
  RetrievalContiguity.activations (RetrievalContiguity.encode rho beta n) (Some i) =
    Returns bars_i ->
  RetrievalContiguity.activations (RetrievalContiguity.encode rho beta n) (Some j) =
    Returns bars_j ->
  option_map RetrievalContiguity.activation (nth_error bars_i j) =
  option_map RetrievalContiguity.activation (nth_error bars_j i).
Proof.
  intros comm.
  unfold RetrievalContiguity.activations, RetrievalContiguity.currentProbeContext.
  destruct (nth_error (RetrievalContiguity.encode rho beta n) i) as [ei|] eqn:Ei;
    [|discriminate].
  destruct (nth_error (RetrievalContiguity.encode rho beta n) j) as [ej|] eqn:Ej;
    [|discriminate].
  intros [= <-] [= <-]. unfold RetrievalContiguity.activate.
  rewrite !nth_error_map_from, Ei, Ej. cbn [option_map RetrievalContiguity.activation].
  f_equal. apply dot_sym; [exact comm|].
  now rewrite (contiguity_context_length rho beta n i ei Ei),
              (contiguity_context_length rho beta n j ej Ej).
Qed.

(** An instance of X8 in binary64: the slide's own history, items 1 and 4. *)
Lemma activation_symmetric_witness :
  exists bars_1 bars_4,
    (forall x y : float, (x * y)%num = (y * x)%num) /\
    RetrievalContiguity.activations
      (RetrievalContiguity.encode (T := float) RetrievalContiguity.rho
         RetrievalContiguity.beta 6) (Some 1) = Returns bars_1 /\
    RetrievalContiguity.activations
      (RetrievalContiguity.encode (T := float) RetrievalContiguity.rho
         RetrievalContiguity.beta 6) (Some 4) = Returns bars_4 /\
    option_map RetrievalContiguity.activation (nth_error bars_1 4) =
    option_map RetrievalContiguity.activation (nth_error bars_4 1).
Proof.
  eexists. eexists. split; [exact float_mul_comm|].
  split; [reflexivity|]. split; [reflexivity|].
  apply (activation_symmetric float float_Number RetrievalContiguity.rho
           RetrievalContiguity.beta 6 1 4); [exact float_mul_comm | reflexivity | reflexivity].
Defined.

(** ** NaN *)

Lemma float_add_nan_r (x : float) : (x + nan)%float = nan.
Proof.
  apply Prim2SF_inj. rewrite add_spec.
  change (Prim2SF nan) with S754_nan.
  now destruct (Prim2SF x).
Qed.

Lemma float_add_nan_l (x : float) : (nan + x)%float = nan.
Proof.
  apply Prim2SF_inj. rewrite add_spec.
  change (Prim2SF nan) with S754_nan. reflexivity.
Qed.

Lemma dot_stays_nan (v2 v1 : list float) :
  forall k,
    reduce_from (fun sum val i => (sum + mul_undef val (nth_error v2 i))%num) k v1 nan
    = nan.
Proof.
  induction v1 as [|x v1 IH]; intros k; simpl; [reflexivity|].
  change (num_add nan (mul_undef x (nth_error v2 k)))
    with (nan + mul_undef x (nth_error v2 k))%float.
  rewrite float_add_nan_l. apply IH.
Qed.

Lemma dot_runs_out (v2 v1 : list float) :
  forall k acc,
    k <= length v2 < k + length v1 ->
    reduce_from (fun sum val i => (sum + mul_undef val (nth_error v2 i))%num) k v1 acc
    = nan.
Proof.
  induction v1 as [|x v1 IH]; intros k acc Hl; simpl in *; [lia|].
  destruct (nth_error v2 k) as [y|] eqn:E.
  - apply IH. assert (k < length v2) by (apply nth_error_Some; congruence). lia.
  - cbn [mul_undef].
    change (num_add acc num_nan) with (acc + nan)%float.
    rewrite float_add_nan_r. apply dot_stays_nan.
Qed.

(** X9. Vectors of different lengths.  The result of [add] has the length
    of its first argument, and [add] and [dot] read the second only up to
    that length: what a longer second argument holds beyond it is ignored.
    A shorter second argument is read past its end: [add] yields NaN at
    every position it lacks, and in binary64 [dot] is NaN. *)
Theorem mismatched_lengths :
  (forall (T : Type) (N : Number T) (v1 v2 : list T),
      length (add v1 v2) = length v1) /\
  (forall (T : Type) (N : Number T) (v1 v2 : list T),
      length v1 <= length v2 ->
      add v1 v2 = add v1 (firstn (length v1) v2) /\
      dot v1 v2 = dot v1 (firstn (length v1) v2)) /\
  (forall (T : Type) (N : Number T) (v1 v2 : list T) (i : nat),
      length v2 <= i < length v1 ->
      nth_error (add v1 v2) i = Some num_nan) /\
  (forall v1 v2 : list float,
      length v2 < length v1 -> dot v1 v2 = nan).
Proof.
  split; [|split; [|split]].
  - intros T N v1 v2. apply add_length.
  - intros T N v1 v2 Hl. split.
    + apply nth_error_ext. intros i. rewrite !nth_error_add.
      destruct (nth_error v1 i) as [x|] eqn:Ex; [|reflexivity].
      cbn [option_map]. f_equal. f_equal.
      assert (i < length v1) by (apply nth_error_Some; congruence).
      now rewrite nth_error_firstn, (proj2 (Nat.ltb_lt i (length v1)) H).
    + rewrite !dot_sum_of_products, combine_firstn_r; [reflexivity| |exact Hl].
      rewrite length_firstn. lia.
  - intros T N v1 v2 i [Hl Hu]. rewrite nth_error_add.
    destruct (nth_error v1 i) as [x|] eqn:Ex.
    + cbn [option_map]. replace (nth_error v2 i) with (@None T); [reflexivity|].
      symmetry. now apply nth_error_None.
    + apply nth_error_None in Ex. lia.
  - intros v1 v2 Hl. unfold dot. apply dot_runs_out. simpl. lia.
Qed.

(** An instance of X9 in binary64. *)
Lemma mismatched_lengths_witness :
  length (add [1; 2]%float [3]%float) = 2 /\
  length (add [1; 2]%float [3; 4; 5]%float) = 2 /\
  (length [1; 2]%float <= length [3; 4; 5]%float /\
   dot [1; 2]%float [3; 4; 5]%float = dot [1; 2]%float (firstn 2 [3; 4; 5]%float)) /\
  (length [3]%float <= 1 < length [1; 2]%float /\
   nth_error (add [1; 2]%float [3]%float) 1 = Some nan) /\
  (length [3]%float < length [1; 2]%float /\
   dot [1; 2]%float [3]%float = nan).
Proof.
  split; [|split; [|split; [|split]]].
  - exact (proj1 mismatched_lengths float float_Number [1; 2]%float [3]%float).
  - exact (proj1 mismatched_lengths float float_Number [1; 2]%float [3; 4; 5]%float).
  - split; [simpl; lia|].
    apply (proj1 (proj2 mismatched_lengths) float float_Number
                 [1; 2]%float [3; 4; 5]%float).
    simpl; lia.
  - split; [simpl; lia|].
    apply (proj1 (proj2 (proj2 mismatched_lengths)) float float_Number
                 [1; 2]%float [3]%float 1).
    simpl; lia.
  - split; [simpl; lia|].
    apply (proj2 (proj2 (proj2 mismatched_lengths)) [1; 2]%float [3]%float).
    simpl; lia.
Defined.

(** ** The histories of the two loops *)

Section LoopStructure.
Context {T : Type} `{Number T}.

Lemma encode_state_at (rho beta : T) (n : nat) :
  forall i, i < n ->
    nth_error (fst (RetrievalRecency.encode rho beta n)) i =
    Some {| RetrievalRecency.item := nth_error ITEMS i;
            RetrievalRecency.contextAtEncoding :=
              snd (RetrievalRecency.encode rho beta (S i)) |}.
Proof.
  induction n as [|n IH]; intros i Hi; [lia|].
  rewrite encode_states_S.
  destruct (Nat.eq_dec i n) as [->|Hne].
  - rewrite nth_error_app2 by (rewrite encode_states_length; lia).
    now rewrite encode_states_length, Nat.sub_diag.
  - rewrite nth_error_app1 by (rewrite encode_states_length; lia).
    apply IH. lia.
Qed.

(** The pair the contiguity loop holds after [n] turns. *)
Lemma contiguity_fold (rho beta : T) (n : nat) :
  fold_left (RetrievalContiguity.present rho beta) (seq 0 n)
            ([], repeat zero VECTOR_SIZE) =
  (RetrievalContiguity.encode rho beta n, snd (RetrievalRecency.encode rho beta n)).
Proof.
  unfold RetrievalContiguity.encode.
  induction n as [|n IH]; [reflexivity|].
  rewrite seq_S, fold_left_app, IH. cbn [fold_left fst snd Nat.add].
  unfold RetrievalContiguity.present at 1 3.
  now rewrite encode_context_S.
Qed.

Lemma contiguity_encode_S (rho beta : T) (n : nat) :
  RetrievalContiguity.encode rho beta (S n) =
  RetrievalContiguity.encode rho beta n ++
  [{| RetrievalContiguity.item := nth_error ITEMS n;
      RetrievalContiguity.context := snd (RetrievalRecency.encode rho beta (S n));
      RetrievalContiguity.originalIndex := n |}].
Proof.
  unfold RetrievalContiguity.encode at 1.
  rewrite seq_S, fold_left_app, contiguity_fold. cbn [fold_left fst Nat.add].
  unfold RetrievalContiguity.present. cbn [fst]. now rewrite encode_context_S.
Qed.

Lemma contiguity_encode_length (rho beta : T) (n : nat) :
  length (RetrievalContiguity.encode rho beta n) = n.
Proof.
  induction n as [|n IH]; [reflexivity|].
  rewrite contiguity_encode_S, length_app, IH. simpl. lia.
Qed.

Lemma contiguity_entry_at (rho beta : T) (n : nat) :
  forall i, i < n ->
    nth_error (RetrievalContiguity.encode rho beta n) i =
    Some {| RetrievalContiguity.item := nth_error ITEMS i;
            RetrievalContiguity.context := snd (RetrievalRecency.encode rho beta (S i));
            RetrievalContiguity.originalIndex := i |}.
Proof.
  induction n as [|n IH]; intros i Hi; [lia|].
  rewrite contiguity_encode_S.
  destruct (Nat.eq_dec i n) as [->|Hne].
  - rewrite nth_error_app2 by (rewrite contiguity_encode_length; lia).
    now rewrite contiguity_encode_length, Nat.sub_diag.
  - rewrite nth_error_app1 by (rewrite contiguity_encode_length; lia).
    apply IH. lia.
Qed.

End LoopStructure.

(** X10. The history a retrieval loop builds is gapless and stable: for
    every rho, beta and list length n it has n entries, and the entry at
    position i carries [ITEMS[i]] (and, on the contiguity slide, the index
    i) with the context the loop holds after i + 1 presentations, whatever
    is presented after it.  Both slides build the same vectors. *)
Theorem loop_history_structure (T : Type) (N : Number T) (rho beta : T) (n : nat) :
  (length (fst (RetrievalRecency.encode rho beta n)) = n /\
   forall i, i < n ->
     nth_error (fst (RetrievalRecency.encode rho beta n)) i =
     Some {| RetrievalRecency.item := nth_error ITEMS i;
             RetrievalRecency.contextAtEncoding :=
               snd (RetrievalRecency.encode rho beta (S i)) |}) /\
  (length (RetrievalContiguity.encode rho beta n) = n /\
   forall i, i < n ->
     nth_error (RetrievalContiguity.encode rho beta n) i =
     Some {| RetrievalContiguity.item := nth_error ITEMS i;
             RetrievalContiguity.context :=
               snd (RetrievalRecency.encode rho beta (S i));
             RetrievalContiguity.originalIndex := i |}) /\
  (forall m, n <= m ->
     firstn n (fst (RetrievalRecency.encode rho beta m)) =
     fst (RetrievalRecency.encode rho beta n)).
Proof.
  split; [|split].
  - split; [apply encode_states_length | apply encode_state_at].
  - split; [apply contiguity_encode_length | apply contiguity_entry_at].
  - intros m Hm. apply nth_error_ext. intros i.
    rewrite nth_error_firstn.
    destruct (Nat.ltb i n) eqn:Ei.
    + apply Nat.ltb_lt in Ei.
      now rewrite !encode_state_at by lia.
    + apply Nat.ltb_ge in Ei. symmetry. apply nth_error_None.
      now rewrite encode_states_length.
Qed.

(** X11. When the activations fail.  The probe is the entry at
    [recalledIndex], or at position 5 (listLength - 1, not the last entry)
    when nothing is recalled: the computation returns one bar per entry
    when the history has that position and throws when it has not.  On a
    history of six entries it returns for null and for every button; on a
    shorter one (three presentations, say) the end-of-list probe throws
    although the history is not empty. *)
Theorem activations_fail_exactly (T : Type) (N : Number T)
        (encodingHistory : list (RetrievalContiguity.entry (T := T)))
        (recalledIndex : option nat) :
  let position := match recalledIndex with
                  | None => 5
                  | Some k => k
                  end in
  (position < length encodingHistory ->
   exists bars,
     RetrievalContiguity.activations encodingHistory recalledIndex = Returns bars /\
     length bars = length encodingHistory) /\
  (length encodingHistory <= position ->
   RetrievalContiguity.activations encodingHistory recalledIndex = Throws TypeError).
Proof.
  cbv zeta. unfold RetrievalContiguity.activations,
    RetrievalContiguity.currentProbeContext, RetrievalContiguity.listLength.
  change (6 - 1) with 5.
  destruct (nth_error encodingHistory
              match recalledIndex with None => 5 | Some k => k end) as [e|] eqn:E.
  - split.
    + intros _. eexists. split; [reflexivity|].
      unfold RetrievalContiguity.activate. apply map_from_length.
    + intros Hl. apply nth_error_None in Hl. congruence.
  - split.
    + intros Hl. apply nth_error_Some in Hl. congruence.
    + reflexivity.
Qed.

(** An instance of X11 in binary64: three entries and no recalled index. *)
Lemma activations_fail_exactly_witness :
  let short := RetrievalContiguity.encode (T := float) RetrievalContiguity.rho
                 RetrievalContiguity.beta 3 in
  (length short <= 5 /\
   RetrievalContiguity.activations short None = Throws TypeError) /\
  (2 < length short /\
   exists bars,
     RetrievalContiguity.activations short (Some 2) = Returns bars /\
     length bars = length short).
Proof.
  cbv zeta. split.
  - split; [vm_compute; lia|].
    apply (proj2 (activations_fail_exactly float float_Number
                    (RetrievalContiguity.encode RetrievalContiguity.rho
                       RetrievalContiguity.beta 3) None)).
    vm_compute. lia.
  - split; [vm_compute; lia|].
    apply (proj1 (activations_fail_exactly float float_Number
                    (RetrievalContiguity.encode RetrievalContiguity.rho
                       RetrievalContiguity.beta 3) (Some 2))).
    vm_compute. lia.
Defined.

(** ** normalize *)

Lemma reduce_from_app {A B : Type} (f : B -> A -> nat -> B) (v w : list A) :
  forall k acc,
    reduce_from f k (v ++ w) acc = reduce_from f (k + length v) w (reduce_from f k v acc).
Proof.
  induction v as [|x v IH]; intros k acc; simpl.
  - now rewrite Nat.add_0_r.
  - rewrite IH. now rewrite Nat.add_succ_r.
Qed.

(** Zeros add nothing to a sum of squares that is 0 or 1. *)
Lemma squares_of_zeros (acc : float) (v : list float) :
  acc = 0%float \/ acc = 1%float ->
  Forall (fun x => x = 0%float \/ x = (-0)%float) v ->
  forall k,
    reduce_from (fun sum val _ => (sum + val * val)%float) k v acc = acc.
Proof.
  intros Hacc Hv. induction Hv as [|x v Hx Hv IH]; intros k; simpl; [reflexivity|].
  replace (acc + x * x)%float with acc; [apply IH|].
  destruct Hacc as [-> | ->], Hx as [-> | ->]; reflexivity.
Qed.

Lemma one_hot_split (index : Z) (size : nat) :
  (0 <= index < Z.of_nat size)%Z ->
  createItemVector (T := float) index size =
  repeat 0%float (Z.to_nat index) ++ 1%float :: repeat 0%float (size - 1 - Z.to_nat index).
Proof.
  intros Hin. apply nth_error_ext. intros j.
  rewrite nth_error_createItemVector.
  change (one (T := float)) with 1%float. change (zero (T := float)) with 0%float.
  destruct (Nat.lt_ge_cases j (Z.to_nat index)) as [Hlt|Hge].
  - rewrite nth_error_app1 by (now rewrite repeat_length).
    rewrite nth_error_repeat_lt.
    replace (Nat.ltb j size) with true by (symmetry; apply Nat.ltb_lt; lia).
    replace (Nat.ltb j (Z.to_nat index)) with true by (symmetry; now apply Nat.ltb_lt).
    replace (Z.of_nat j =? index)%Z with false by (symmetry; apply Z.eqb_neq; lia).
    reflexivity.
  - rewrite nth_error_app2 by (now rewrite repeat_length).
    rewrite repeat_length.
    destruct (j - Z.to_nat index) as [|d] eqn:Ed.
    + replace (Nat.ltb j size) with true by (symmetry; apply Nat.ltb_lt; lia).
      replace (Z.of_nat j =? index)%Z with true by (symmetry; apply Z.eqb_eq; lia).
      reflexivity.
    + simpl. rewrite nth_error_repeat_lt.
      replace (Z.of_nat j =? index)%Z with false by (symmetry; apply Z.eqb_neq; lia).
      destruct (Nat.ltb j size) eqn:Ej.
      * apply Nat.ltb_lt in Ej.
        now replace (Nat.ltb d (size - 1 - Z.to_nat index)) with true
          by (symmetry; apply Nat.ltb_lt; lia).
      * apply Nat.ltb_ge in Ej.
        now replace (Nat.ltb d (size - 1 - Z.to_nat index)) with false
          by (symmetry; apply Nat.ltb_ge; lia).
Qed.

Lemma Forall_repeat_zero (n : nat) :
  Forall (fun x => x = 0%float \/ x = (-0)%float) (repeat 0%float n).
Proof. induction n; simpl; constructor; auto. Qed.

(** X12. [normalize] in binary64 keeps the length of its argument; it
    returns a vector of zeros as it is (the magnitude is 0 and nothing is
    divided), so the initial context is left alone; and it returns every
    item vector [createItemVector(index, size)] as it is: the one-hot
    vectors are unit vectors already. *)
Theorem normalize_edge_cases :
  (forall v : list float, length (normalize v) = length v) /\
  (forall v : list float,
      Forall (fun x => x = 0%float \/ x = (-0)%float) v -> normalize v = v) /\
  (forall (index : Z) (size : nat),
      normalize (createItemVector index size) = createItemVector index size).
Proof.
  assert (forall v : list float,
             Forall (fun x => x = 0%float \/ x = (-0)%float) v -> normalize v = v) as Z0.
  { intros v Hv. unfold normalize.
    rewrite (squares_of_zeros 0%float v (or_introl eq_refl) Hv). reflexivity. }
  split; [|split; [exact Z0|]].
  - intros v. unfold normalize.
    destruct (PrimFloat.eqb _ _); [reflexivity | apply length_map].
  - intros index size.
    destruct (Z_lt_ge_dec index 0) as [Hneg|Hpos];
      [|destruct (Z_lt_ge_dec index (Z.of_nat size)) as [Hlt|Hge]].
    + rewrite createItemVector_outside by lia.
      apply Z0. apply Forall_repeat_zero.
    + rewrite one_hot_split by lia. unfold normalize.
      rewrite reduce_from_app.
      rewrite (squares_of_zeros 0%float _ (or_introl eq_refl) (Forall_repeat_zero _)).
      cbn [reduce_from].
      replace (0 + 1 * 1)%float with 1%float by reflexivity.
      rewrite (squares_of_zeros 1%float _ (or_intror eq_refl) (Forall_repeat_zero _)).
      replace (PrimFloat.sqrt 1 =? 0)%float with false by reflexivity.
      rewrite map_app. cbn [map]. rewrite !map_repeat.
      replace (0 / PrimFloat.sqrt 1)%float with 0%float by reflexivity.
      replace (1 / PrimFloat.sqrt 1)%float with 1%float by reflexivity.
      reflexivity.
    + rewrite createItemVector_outside by lia.
      apply Z0. apply Forall_repeat_zero.
Qed.

(** An instance of X12: a vector of two zeros of different sign. *)
Lemma normalize_edge_cases_witness :
  Forall (fun x => x = 0%float \/ x = (-0)%float) [0; -0]%float /\
  normalize [0; -0]%float = [0; -0]%float.
Proof.
  assert (Forall (fun x => x = 0%float \/ x = (-0)%float) [0; -0]%float) as Hz
      by (repeat constructor; auto).
  split; [exact Hz|].
  exact (proj1 (proj2 normalize_edge_cases) [0; -0]%float Hz).
Defined.

(** ** The fill of a bar *)

Lemma SFcompare_refl (x : spec_float) : x <> S754_nan -> SFcompare x x = Some Eq.
Proof.
  destruct x as [s|s| |s m e]; intros Hx; simpl; try congruence.
  - now destruct s.
  - destruct s; rewrite Z.compare_refl, Pos.compare_cont_refl; reflexivity.
Qed.

Lemma float_not_nan (x : float) : is_nan x = false -> Prim2SF x <> S754_nan.
Proof.
  unfold is_nan. rewrite eqb_spec. intros E Hn. rewrite Hn in E. discriminate.
Qed.

Lemma abs_not_nan (x : float) : is_nan x = false -> is_nan (PrimFloat.abs x) = false.
Proof.
  intros Hx. apply float_not_nan in Hx.
  unfold is_nan. rewrite eqb_spec, abs_spec. unfold SFeqb.
  rewrite SFcompare_refl; [reflexivity|].
  now destruct (Prim2SF x).
Qed.

Lemma abs_nonnegative (x : float) :
  is_nan x = false -> (0 <=? PrimFloat.abs x)%float = true.
Proof.
  intros Hx. apply float_not_nan in Hx.
  rewrite leb_spec, abs_spec. change (Prim2SF 0) with (S754_zero false).
  now destruct (Prim2SF x).
Qed.

Lemma abs_not_negative_zero (x : float) : classify (PrimFloat.abs x) <> NZero.
Proof.
  rewrite classify_spec, abs_spec. unfold SF64classify.
  destruct (Prim2SF x) as [s|s| |s m e]; simpl; try discriminate.
  match goal with |- context [if ?c then _ else _] => destruct c end; discriminate.
Qed.

Lemma ltb_leb (x y : float) : (x <? y)%float = true -> (x <=? y)%float = true.
Proof.
  rewrite ltb_spec, leb_spec. unfold SFltb, SFleb.
  now destruct (SFcompare (Prim2SF x) (Prim2SF y)) as [[| |]|].
Qed.

(** X13. The fill of a bar, [Math.min(Math.abs(val), 1)], is a valid
    opacity and scale for every number that is not NaN: it lies between 0
    and 1, it is the absolute value below 1 and it is 1 from there on. *)
Theorem fill_is_clamped (val : float) :
  is_nan val = false ->
  (0 <=? fill val)%float = true /\
  (fill val <=? 1)%float = true /\
  ((PrimFloat.abs val <? 1)%float = true -> fill val = PrimFloat.abs val) /\
  ((PrimFloat.abs val <? 1)%float = false -> fill val = 1%float).
Proof.
  intros Hv. unfold fill, Math_min.
  rewrite (abs_not_nan val Hv).
  replace (is_nan 1) with false by reflexivity. cbn [orb].
  destruct (PrimFloat.abs val <? 1)%float eqn:Elt.
  - repeat split.
    + now apply abs_nonnegative.
    + now apply ltb_leb.
    + discriminate.
  - assert ((if (1 <? PrimFloat.abs val)%float then 1%float
             else match classify (PrimFloat.abs val) with
                  | NZero => PrimFloat.abs val
                  | _ => 1%float
                  end) = 1%float) as E.
    { destruct (1 <? PrimFloat.abs val)%float; [reflexivity|].
      pose proof (abs_not_negative_zero val) as Hz.
      destruct (classify (PrimFloat.abs val)); try reflexivity. now elim Hz. }
    rewrite E. repeat split. discriminate.
Qed.

(** An instance of X13: -0.25 and 3. *)
Lemma fill_is_clamped_witness :
  (is_nan (-0.25)%float = false /\ fill (-0.25)%float = 0.25%float) /\
  (is_nan 3%float = false /\ fill 3%float = 1%float).
Proof.
  split.
  - split; [reflexivity|].
    apply (proj1 (proj2 (proj2 (fill_is_clamped (-0.25)%float eq_refl)))).
    reflexivity.
  - split; [reflexivity|].
    apply (proj2 (proj2 (proj2 (fill_is_clamped 3%float eq_refl)))).
    reflexivity.
Defined.

(** ** The colours of the bars *)

(** X14. Which bars the contiguity slide colours.  With an item k >= 1
    recalled, the bar k has the colour of the target and the bars k - 1 and
    k + 1 the colour of a neighbour.  With item 0 recalled, or nothing, no
    bar of a history of at most 99 entries has the colour of a neighbour:
    [recalledIndex || 100] reads the index 0 as 100, so the bar of item 1
    stays plain when item 0 is the target. *)
Theorem neighbour_colours (T : Type) (N : Number T)
        (probe : list T) (encodingHistory : list (RetrievalContiguity.entry (T := T)))
        (recalledIndex : option nat) (i : nat) :
  i < length encodingHistory ->
  let fills :=
    cellFills (RetrievalContiguity.activate probe encodingHistory recalledIndex)
              recalledIndex in
  (forall k, recalledIndex = Some (S k) ->
     nth_error fills i =
     Some (if Nat.eqb i (S k) then "#059669"
           else if (Nat.eqb i k || Nat.eqb i (S (S k)))%bool then "#34d399"
                else "#d1fae5")%string) /\
  (recalledIndex = Some 0 -> length encodingHistory <= 99 ->
     nth_error fills i =
     Some (if Nat.eqb i 0 then "#059669" else "#d1fae5")%string) /\
  (recalledIndex = None -> length encodingHistory <= 99 ->
     nth_error fills i = Some "#d1fae5"%string).
Proof.
  intros Hi. cbv zeta.
  destruct (nth_error encodingHistory i) as [e|] eqn:Ee;
    [|apply nth_error_None in Ee; lia].
  unfold cellFills, RetrievalContiguity.activate.
  rewrite nth_error_map_from, nth_error_map_from, Ee.
  cbn [option_map RetrievalContiguity.isTarget Nat.add].
  split; [|split].
  - intros k ->. f_equal. unfold cellFill, recalled_or_100.
    destruct (Nat.eqb i (S k)) eqn:E1; [reflexivity|].
    apply Nat.eqb_neq in E1.
    destruct (Nat.eqb i k) eqn:E2.
    + apply Nat.eqb_eq in E2. subst i.
      now replace (Z.abs (Z.of_nat k - Z.of_nat (S k)) =? 1)%Z with true
        by (symmetry; apply Z.eqb_eq; lia).
    + apply Nat.eqb_neq in E2.
      destruct (Nat.eqb i (S (S k))) eqn:E3.
      * apply Nat.eqb_eq in E3. subst i.
        now replace (Z.abs (Z.of_nat (S (S k)) - Z.of_nat (S k)) =? 1)%Z with true
          by (symmetry; apply Z.eqb_eq; lia).
      * apply Nat.eqb_neq in E3.
        now replace (Z.abs (Z.of_nat i - Z.of_nat (S k)) =? 1)%Z with false
          by (symmetry; apply Z.eqb_neq; lia).
  - intros -> Hl. f_equal. unfold cellFill, recalled_or_100.
    destruct (Nat.eqb i 0); [reflexivity|].
    now replace (Z.abs (Z.of_nat i - Z.of_nat 100) =? 1)%Z with false
      by (symmetry; apply Z.eqb_neq; lia).
  - intros -> Hl. f_equal. unfold cellFill, recalled_or_100.
    now replace (Z.abs (Z.of_nat i - Z.of_nat 100) =? 1)%Z with false
      by (symmetry; apply Z.eqb_neq; lia).
Qed.

(** An instance of X14 in binary64: the slide's history, item 0 recalled,
    the bar of item 1. *)
Lemma neighbour_colours_witness :
  1 < length (RetrievalContiguity.encodingHistory (T := float)) /\
  nth_error
    (cellFills (RetrievalContiguity.activate
                  (repeat 0%float 6) RetrievalContiguity.encodingHistory (Some 0))
               (Some 0)) 1 = Some "#d1fae5"%string.
Proof.
  assert (1 < length (RetrievalContiguity.encodingHistory (T := float))) as Hl
      by (vm_compute; lia).
  split; [exact Hl|].
  apply (proj1 (proj2 (neighbour_colours float float_Number (repeat 0%float 6)
                         RetrievalContiguity.encodingHistory (Some 0) 1 Hl)));
    [reflexivity | vm_compute; lia].
Defined.

(** ** The slide shown *)

(** X15. The footer never leaves the slides: whatever is clicked, the
    current step is one of 0 to 3 and has a title; a button is disabled
    exactly when its click would change nothing; and away from the ends
    Next undoes Previous and Previous undoes Next. *)
Theorem navigation_stays_on_slides (clicks : list App.button) :
  let currentStep := App.run clicks in
  (0 <= currentStep <= 3)%Z /\
  (exists t, App.title currentStep = Some t) /\
  (forall b, App.disabled b currentStep = true <-> App.click b currentStep = currentStep) /\
  (currentStep <> 3%Z ->
   App.click App.Previous (App.click App.Next currentStep) = currentStep) /\
  (currentStep <> 0%Z ->
   App.click App.Next (App.click App.Previous currentStep) = currentStep).
Proof.
  cbv zeta.
  assert (0 <= App.run clicks <= 3)%Z as Hb.
  { unfold App.run. induction clicks as [|b clicks IH] using rev_ind; [simpl; lia|].
    rewrite fold_left_app. cbn [fold_left].
    set (s := fold_left (fun currentStep b => App.click b currentStep) clicks 0%Z) in *.
    destruct b; unfold App.click;
      change (Z.of_nat (length App.steps)) with 4%Z; lia. }
  split; [exact Hb|]. split; [|split; [|split]].
  - unfold App.title.
    replace (App.run clicks <? 0)%Z with false by (symmetry; apply Z.ltb_ge; lia).
    destruct (nth_error App.steps (Z.to_nat (App.run clicks))) as [t|] eqn:E;
      [now exists t|].
    apply nth_error_None in E. simpl in E. lia.
  - intros b. destruct b; unfold App.disabled, App.click;
      change (Z.of_nat (length App.steps)) with 4%Z; rewrite Z.eqb_eq; lia.
  - intros Hne. unfold App.click. change (Z.of_nat (length App.steps)) with 4%Z. lia.
  - intros Hne. unfold App.click. change (Z.of_nat (length App.steps)) with 4%Z. lia.
Qed.

(** ** Recency for every decay *)

Section RecencyProfile.
Context {T : Type} `{Number T}.

(** The similarities are the dot products of the last context with the
    context after each presentation. *)
Lemma recency_similarities_dots (rho beta : T) (n : nat) :
  map RetrievalRecency.similarity (recency_similarities rho beta n) =
  map (fun i => dot (snd (RetrievalRecency.encode rho beta n))
                    (snd (RetrievalRecency.encode rho beta (S i))))
      (seq 0 n).
Proof.
  apply nth_error_ext. intros i. unfold recency_similarities.
  rewrite !nth_error_map, nth_error_map_from.
  destruct (Nat.lt_ge_cases i n) as [Hlt|Hge].
  - now rewrite encode_state_at, nth_error_seq_lt by exact Hlt.
  - replace (nth_error (fst (RetrievalRecency.encode rho beta n)) i)
      with (@None (RetrievalRecency.state (T := T)))
      by (symmetry; apply nth_error_None; now rewrite encode_states_length).
    replace (nth_error (seq 0 n) i) with (@None nat)
      by (symmetry; apply nth_error_None; now rewrite length_seq).
    reflexivity.
Qed.

End RecencyProfile.

Lemma power_rat (r : Qc) (n : nat) : power (T := rat) (Some r) n = Some (r ^ n)%Qc.
Proof. induction n as [|n IH]; simpl; [reflexivity|]. now rewrite IH. Qed.

(** The context after [k] presentations, on exact numbers. *)
Lemma encode_explicit (r b : Qc) (k : nat) :
  snd (RetrievalRecency.encode (T := rat) (Some r) (Some b) k) =
  map (fun j => Some (if Nat.ltb j k then b * r ^ (k - 1 - j) else 0)%Qc) (seq 0 6).
Proof.
  apply nth_error_ext. intros j.
  rewrite (@encode_components rat rat_Number rat_exact (Some r) (Some b))
    by discriminate.
  rewrite nth_error_map.
  destruct (Nat.ltb j VECTOR_SIZE) eqn:Ej.
  - apply Nat.ltb_lt in Ej. unfold VECTOR_SIZE in Ej.
    rewrite nth_error_seq_lt by lia. simpl option_map.
    destruct (Nat.ltb j k); [|reflexivity].
    now rewrite power_rat.
  - apply Nat.ltb_ge in Ej. unfold VECTOR_SIZE in Ej.
    replace (nth_error (seq 0 6) j) with (@None nat); [reflexivity|].
    symmetry. apply nth_error_None. rewrite length_seq. lia.
Qed.

Lemma Qc_square_nonneg (x : Qc) : (0 <= x * x)%Qc.
Proof.
  unfold Qcle. change (this (x * x)) with (Qred (this x * this x)).
  rewrite Qred_correct. change (this 0) with 0%Q.
  destruct x as [[n d] c]. unfold Qle, Qmult. simpl. nia.
Qed.

Lemma Qc_mult_nonneg (x y : Qc) : (0 <= x -> 0 <= y -> 0 <= x * y)%Qc.
Proof.
  intros Hx Hy. rewrite <- (Qcmult_0_l y). now apply Qcmult_le_compat_r.
Qed.

Lemma Qc_plus_nonneg (x y : Qc) : (0 <= x -> 0 <= y -> 0 <= x + y)%Qc.
Proof.
  intros Hx Hy. rewrite <- (Qcplus_0_l 0). now apply Qcplus_le_compat.
Qed.

Lemma Qc_one_nonneg : (0 <= 1)%Qc.
Proof. unfold Qcle. apply Qle_bool_iff. reflexivity. Qed.

Ltac qc_nonneg :=
  repeat first
    [ assumption
    | apply Qc_one_nonneg
    | apply Qc_square_nonneg
    | apply Qc_mult_nonneg
    | apply Qc_plus_nonneg ].

(** [p <= q] from a difference that is a product of non-negative factors. *)
Lemma Qc_le_by_difference (p q d : Qc) :
  (q + - p = d -> 0 <= d -> p <= q)%Qc.
Proof. intros E Hd. apply Qcle_minus_iff. now rewrite E. Qed.

(** X16. The recency effect does not depend on the constants of the slide:
    for every decay rho in [0, 1] and every input strength beta, in exact
    arithmetic, the similarities of the six-item run ascend from the first
    item to the last; so they do in binary64 for every setting of the
    sliders.  [RetrievalRecency.similarities] is the run with 0.6 and 0.8. *)
Theorem recency_for_every_decay :
  (forall r b : Qc,
      (0 <= r)%Qc -> (r <= 1)%Qc ->
      ascending rat_leb
        (map RetrievalRecency.similarity
             (recency_similarities (T := rat) (Some r) (Some b) 6)) = true) /\
  (forall rho beta : float,
      In rho DriftSimulator.slider_values -> In beta DriftSimulator.slider_values ->
      ascending PrimFloat.leb
        (map RetrievalRecency.similarity (recency_similarities rho beta 6)) = true) /\
  (forall (T : Type) (N : Number T),
      RetrievalRecency.similarities (T := T) =
      recency_similarities RetrievalRecency.rho RetrievalRecency.beta
                           RetrievalRecency.listLength).
Proof.
  split; [|split].
  - intros r b H0 H1.
    assert (0 <= 1 + - r)%Qc as Hr by (exact (proj1 (Qcle_minus_iff r 1) H1)).
    rewrite recency_similarities_dots. cbn [seq map].
    rewrite !encode_explicit.
    cbn [seq map Nat.ltb Nat.leb Nat.sub dot reduce_from nth_error mul_undef
         num_add num_mul rat_Number rat_add rat_mul zero num_lit rat_leb Qcpower
         ascending andb].
    repeat (apply andb_true_intro; split); [| | | | |reflexivity];
      apply Qle_bool_iff;
      match goal with
      | |- (this ?p <= this ?q)%Q => change (p <= q)%Qc
      end.
    + eapply (Qc_le_by_difference _ _
                (b * b * (r ^ 4 * (r ^ 2 + (1 + - r) * 1))));
        cbn [Qcpower]; [ring|qc_nonneg].
    + eapply (Qc_le_by_difference _ _
                (b * b * (r ^ 3 * (r ^ 4 + (1 + - r) * (1 + r ^ 2)))));
        cbn [Qcpower]; [ring|qc_nonneg].
    + eapply (Qc_le_by_difference _ _
                (b * b * (r ^ 2 * (r ^ 6 + (1 + - r) * (1 + r ^ 2 + r ^ 4)))));
        cbn [Qcpower]; [ring|qc_nonneg].
    + eapply (Qc_le_by_difference _ _
                (b * b * (r * (r ^ 8 + (1 + - r) * (1 + r ^ 2 + r ^ 4 + r ^ 6)))));
        cbn [Qcpower]; [ring|qc_nonneg].
    + eapply (Qc_le_by_difference _ _
                (b * b * (r ^ 10 + (1 + - r) * (1 + r ^ 2 + r ^ 4 + r ^ 6 + r ^ 8))));
        cbn [Qcpower]; [ring|qc_nonneg].
  - intros rho beta Hr Hb.
    assert (forallb (fun rho =>
              forallb (fun beta =>
                ascending PrimFloat.leb
                  (map RetrievalRecency.similarity (recency_similarities rho beta 6)))
                DriftSimulator.slider_values)
              DriftSimulator.slider_values = true) as G
        by (vm_compute; reflexivity).
    rewrite forallb_forall in G. specialize (G rho Hr).
    rewrite forallb_forall in G. exact (G beta Hb).
  - reflexivity.
Qed.

(** An instance of X16: rho = 1/2, beta = 3. *)
Lemma recency_for_every_decay_witness :
  ((0 <= Q2Qc (1 # 2))%Qc /\ (Q2Qc (1 # 2) <= 1)%Qc) /\
  ascending rat_leb
    (map RetrievalRecency.similarity
         (recency_similarities (T := rat) (Some (Q2Qc (1 # 2))) (Some (Q2Qc 3)) 6)) = true.
Proof.
  assert ((0 <= Q2Qc (1 # 2))%Qc /\ (Q2Qc (1 # 2) <= 1)%Qc) as [H0 H1]
      by (split; unfold Qcle; apply Qle_bool_iff; reflexivity).
  split; [split; assumption|].
  exact (proj1 recency_for_every_decay (Q2Qc (1 # 2)) (Q2Qc 3) H0 H1).
Defined.

(* ================================================================== *)
(** * The parameters, the reset and the probe *)

(** ** What the sliders can set *)

Section SliderReach.
Context {T : Type} `{Number T}.
Import DriftSimulator.





End SliderReach.





(** ** The tutorial as a whole *)

Section TutorialReach.
Context {T : Type} `{Number T}.






End TutorialReach.



